(** * A shallow embedding of [main.py]: the plan catalogue, the contact
    fan-out and the storage diagnostics of the MC Creative Director AI
    backend.

    The three request handlers of [main.py] ([get_plans], [contact] and
    [test_database]) are transcribed statement by statement into a small
    state-and-exception monad.  Everything the handlers reach outside the
    file (the process environment, the clock, the [database] module,
    [smtplib], [requests], the request validation done by pydantic) is
    gathered in one record, [World], whose fields answer each external call. *)

From Stdlib Require Import ZArith Lia Ascii.
From stdpp Require Import base option list strings gmap pretty.

Local Open Scope Z_scope.

(** ** Python values *)

(** Python [str] values are Rocq strings, one [ascii] per character.  The
    two operations [main.py] applies to strings it did not build itself are
    the slice [s[:n]] and truthiness.  The literals of [test_database] that
    carry a symbol outside ASCII are kept as the bytes of the source file;
    they are only ever concatenated, never sliced or measured. *)
Fixpoint slice_to (n : nat) (s : string) : string :=
  match n, s with
  | O, _ => EmptyString
  | S _, EmptyString => EmptyString
  | S n', String c s' => String c (slice_to n' s')
  end.

Definition nl : string := String (Ascii.ascii_of_nat 10) EmptyString.

Definition str_truthy (s : string) : bool :=
  match s with EmptyString => false | String _ _ => true end.

(** [bool(x)] for [x : Optional[str]]: [None] and [""] are falsy. *)
Definition truthy (o : option string) : bool :=
  match o with None => false | Some s => str_truthy s end.

(** [x or d] for [x : Optional[str]]. *)
Definition or_else (o : option string) (d : string) : string :=
  match o with
  | Some (String c s) => String c s
  | _ => d
  end.

(** [str(x)] inside an f-string, for [x : Optional[str]]. *)
Definition format_opt (o : option string) : string :=
  match o with None => "None" | Some s => s end.

(** The JSON-like values the handlers build: dicts keep insertion order, as
    Python's do. *)
#[local] Set Warnings "-register-all".
Inductive pyval : Type :=
| PNone
| PBool (b : bool)
| PInt (z : Z)
| PStr (s : string)
| PList (l : list pyval)
| PDict (d : list (string * pyval)).

Definition dict := list (string * pyval).

Definition of_opt (o : option string) : pyval :=
  match o with None => PNone | Some s => PStr s end.

Fixpoint dict_get (k : string) (d : dict) : option pyval :=
  match d with
  | [] => None
  | (k', v) :: d' => if String.eqb k k' then Some v else dict_get k d'
  end.

(** [d[k] = v]: overwrite in place when the key exists, append otherwise. *)
Fixpoint dict_set (k : string) (v : pyval) (d : dict) : dict :=
  match d with
  | [] => [(k, v)]
  | (k', v') :: d' =>
      if String.eqb k k' then (k', v) :: d' else (k', v') :: dict_set k v d'
  end.

Definition dict_keys (d : dict) : list string := d.*1.

(** ** Exceptions *)

(** Only two facts about a raised exception are observed by [main.py]:
    whether [except ImportError] catches it, and its [str(e)].  All the
    exceptions here derive from [Exception], the class every handler of
    [main.py] catches; interpreter exits and interrupts are not modelled. *)
Inductive exn_class := ImportError | ValueError | OtherException.

Record exn := Exn { exn_cls : exn_class; exn_str : string }.

Inductive result (A : Type) : Type :=
| Returned (a : A)
| Raised (e : exn).
Arguments Returned {A} a.
Arguments Raised {A} e.

Definition is_import_error (e : exn) : bool :=
  match exn_cls e with ImportError => true | _ => false end.

(** ** The execution monad: a threaded state and exceptions *)

Section Exec.
Context {St : Type}.

Definition M (A : Type) : Type := St -> St * result A.

Definition ret {A} (a : A) : M A := fun s => (s, Returned a).

Definition raise {A} (e : exn) : M A := fun s => (s, Raised e).

Definition bind {A B} (m : M A) (k : A -> M B) : M B :=
  fun s =>
    match m s with
    | (s', Returned a) => k a s'
    | (s', Raised e) => (s', Raised e)
    end.

(** [try: m  except Exception as e: h e]. *)
Definition try_except {A} (m : M A) (h : exn -> M A) : M A :=
  fun s =>
    match m s with
    | (s', Returned a) => (s', Returned a)
    | (s', Raised e) => h e s'
    end.

(** [try: m  except ImportError: h1  except Exception as e: h2 e]. *)
Definition try_except2 {A} (m : M A) (h1 : M A) (h2 : exn -> M A) : M A :=
  fun s =>
    match m s with
    | (s', Returned a) => (s', Returned a)
    | (s', Raised e) => if is_import_error e then h1 s' else h2 e s'
    end.

Definition get : M St := fun s => (s, Returned s).

Definition modify (f : St -> St) : M unit := fun s => (f s, Returned tt).

(** Lift the answer of an external call into the monad. *)
Definition lift {A} (r : result A) : M A := fun s => (s, r).

(** A call that returns nothing: [None] is normal completion. *)
Definition lift_unit (r : option exn) : M unit :=
  fun s => (s, match r with None => Returned tt | Some e => Raised e end).
End Exec.

Notation "x <- m ;; k" := (bind m (fun x => k))
  (at level 100, m at next level, right associativity).
Notation "m ;;; k" := (bind m (fun _ => k))
  (at level 100, right associativity).

(** ** The outside world *)

(** [datetime.now(timezone.utc)]: an aware datetime whose offset is zero. *)
Record datetime := Datetime {
  year : N; month : N; day : N;
  hour : N; minute : N; second : N; microsecond : N
}.

(** [str(n).zfill(width)] for a natural number. *)
Definition zfill (width : nat) (n : N) : string :=
  let s := pretty n in
  String.concat "" (replicate (width - String.length s) "0") +:+ s.

(** [datetime.isoformat()] of a UTC-aware value:
    [YYYY-MM-DDTHH:MM:SS[.ffffff]+00:00].  The date and time come first, the
    fraction only when the microsecond field is not zero, the offset last. *)
Definition isoformat_local (d : datetime) : string :=
  zfill 4 (year d) +:+ "-" +:+ zfill 2 (month d) +:+ "-" +:+ zfill 2 (day d)
  +:+ "T" +:+ zfill 2 (hour d) +:+ ":" +:+ zfill 2 (minute d) +:+ ":"
  +:+ zfill 2 (second d)
  +:+ (if (microsecond d =? 0)%N then "" else "." +:+ zfill 6 (microsecond d)).

Definition isoformat (d : datetime) : string :=
  isoformat_local d +:+ "+00:00".

(** An email under construction: [MIMEMultipart()] with its headers set and
    its parts attached, each part a [(subtype, text)] pair. *)
Record mime := Mime {
  mime_headers : list (string * string);
  mime_parts : list (string * string)
}.

(** [requests.Response], as far as it is read. *)
Record http_response := HttpResponse { status_code : Z; text : string }.

(** The object bound to [database.db] when it is not [None].  [db_name] is
    the attribute lookup [db.name]: [Returned None] when the attribute does
    not exist ([hasattr] is false), [Raised e] when the lookup raises
    something other than [AttributeError]. *)
Record db_handle := DbHandle {
  db_name : result (option pyval);
  list_collection_names : result (list string)
}.

(** Every external call the handlers make, in the order they make them. *)
Inductive event : Type :=
| CreateDocument (collection : string) (doc : dict)
| SmtpConnect (host : string) (port : Z) (timeout : Z)
| SmtpStartTls
| SmtpLogin (user password : string)
| SmtpSendmail (from_addr to_addr : string) (msg : mime)
| SmtpQuit
| RequestsPost (url : string) (json : pyval) (headers : dict) (timeout : Z).

(** The answers of the collaborators.  [create_document] and [db] belong to
    the [database] module, which [main.py] imports and does not define;
    [email_validator] is the check pydantic runs for an [EmailStr] field and
    returns the normalised address. *)
Record World := {
  environ : gmap string string;
  utcnow : datetime;
  email_validator : string -> option string;
  create_document : string -> dict -> result string;
  smtp_connect : string -> Z -> option exn;
  smtp_starttls : option exn;
  smtp_login : string -> string -> option exn;
  smtp_sendmail : string -> string -> mime -> option exn;
  smtp_quit : option exn;
  requests_post : string -> pyval -> dict -> result http_response;
  import_db : result (option db_handle)
}.

(** [os.getenv(k)] and [os.getenv(k, d)]. *)
Definition getenv (w : World) (k : string) : option string := environ w !! k.

Definition getenv_default (w : World) (k d : string) : string :=
  default d (environ w !! k).

(** ** [int(s)] on a string, base ten *)

Definition is_space (c : Ascii.ascii) : bool :=
  let n := Ascii.N_of_ascii c in
  ((9 <=? n) && (n <=? 13) || (28 <=? n) && (n <=? 32)
   || (n =? 133) || (n =? 160))%N.

Definition digit_of (c : Ascii.ascii) : option Z :=
  let n := Ascii.N_of_ascii c in
  if ((48 <=? n) && (n <=? 57))%N then Some (Z.of_N n - 48) else None.

Fixpoint lstrip (s : string) : string :=
  match s with
  | String c s' => if is_space c then lstrip s' else s
  | EmptyString => EmptyString
  end.

Fixpoint all_space (s : string) : bool :=
  match s with
  | EmptyString => true
  | String c s' => is_space c && all_space s'
  end.

Definition starts_with_digit (s : string) : bool :=
  match s with String c _ => bool_decide (is_Some (digit_of c)) | _ => false end.

(** Digits with single underscores between them, then optional trailing
    whitespace.  [seen] tells whether the previous character was a digit. *)
Fixpoint digits (acc : Z) (seen : bool) (s : string) : option Z :=
  match s with
  | EmptyString => if seen then Some acc else None
  | String c s' =>
      match digit_of c with
      | Some d => digits (10 * acc + d) true s'
      | None =>
          if seen && Ascii.eqb c "_"%char && starts_with_digit s' then digits acc false s'
          else if seen && all_space s then Some acc
          else None
      end
  end.

(** [int(s)]: surrounding whitespace, an optional sign, then [digits].  The
    interpreter's configurable cap on the number of digits is left out. *)
Definition py_int (s : string) : option Z :=
  match lstrip s with
  | String "-"%char s' => Z.opp <$> digits 0 false s'
  | String "+"%char s' => digits 0 false s'
  | s' => digits 0 false s'
  end.

(** ** The handlers *)

(** The handlers run over the log of external calls made so far. *)
Definition Run (A : Type) : Type := @M (list event) A.

(** Make an external call: log it, then continue with its answer. *)
Definition call {A} (ev : event) (answer : result A) : Run A :=
  modify (fun log => log ++ [ev]) ;;; lift answer.

Definition call_unit (ev : event) (answer : option exn) : Run unit :=
  modify (fun log => log ++ [ev]) ;;; lift_unit answer.

(** [with resource as x: body], for a resource whose [__exit__] is [leave]:
    [leave] runs whether or not [body] raised, and an exception of [leave]
    replaces the one of [body]. *)
Definition with_exit {St} (body leave : @M St unit) : @M St unit :=
  fun s =>
    match body s with
    | (s', Returned _) => leave s'
    | (s', Raised e) =>
        match leave s' with
        | (s'', Returned _) => (s'', Raised e)
        | (s'', Raised e') => (s'', Raised e')
        end
    end.

(** The value of a variable that a truthiness test has found set. *)
Definition the (o : option string) : string := default "" o.

(** *** [GET /api/plans] *)

Definition features : pyval :=
  PList [PStr "Priority support"; PStr "AI-enhanced workflows";
         PStr "Flexible hour use"; PStr "Instant collaboration"].

Definition get_plans (w : World) : Run dict :=
  let plans :=
    [ PDict [ ("id", PStr "starter");
              ("name", PStr "Starter");
              ("hours", PInt 3);
              ("price_note", PStr "Billed hourly via subscription");
              ("features", features);
              ("stripe_url", of_opt (getenv w "STRIPE_STARTER_URL"));
              ("paypal_url", of_opt (getenv w "PAYPAL_STARTER_URL")) ];
      PDict [ ("id", PStr "growth");
              ("name", PStr "Growth");
              ("hours", PInt 6);
              ("price_note", PStr "Billed hourly via subscription");
              ("features", features);
              ("stripe_url", of_opt (getenv w "STRIPE_GROWTH_URL"));
              ("paypal_url", of_opt (getenv w "PAYPAL_GROWTH_URL")) ];
      PDict [ ("id", PStr "scale");
              ("name", PStr "Scale");
              ("hours", PInt 9);
              ("price_note", PStr "Billed hourly via subscription");
              ("features", features);
              ("stripe_url", of_opt (getenv w "STRIPE_SCALE_URL"));
              ("paypal_url", of_opt (getenv w "PAYPAL_SCALE_URL")) ] ] in
  ret [("plans", PList plans)].

(** *** [POST /api/contact] *)

Record ContactPayload := {
  name : string;
  email : string;
  company : option string;
  message : string;
  source : option string
}.

(** [int(s)] as a step of a handler. *)
Definition int_ {St} (s : string) : @M St Z :=
  match py_int s with
  | Some z => ret z
  | None =>
      raise (Exn ValueError
               ("invalid literal for int() with base 10: '" +:+ s +:+ "'"))
  end.

Definition contact_document (w : World) (payload : ContactPayload) : dict :=
  [ ("name", PStr (name payload));
    ("email", PStr (email payload));
    ("company", of_opt (company payload));
    ("message", PStr (message payload));
    ("source", of_opt (source payload));
    ("received_at", PStr (isoformat (utcnow w))) ].

Definition email_body (payload : ContactPayload) : string :=
  nl +:+ "New inquiry received" +:+ nl +:+ nl
  +:+ "Name: " +:+ name payload +:+ nl
  +:+ "Email: " +:+ email payload +:+ nl
  +:+ "Company: " +:+ or_else (company payload) "-" +:+ nl
  +:+ "Message:" +:+ nl +:+ message payload +:+ nl +:+ nl
  +:+ "Source: " +:+ format_opt (source payload) +:+ nl.

Definition notion_headers (notion_token : string) : dict :=
  [ ("Authorization", PStr ("Bearer " +:+ notion_token));
    ("Content-Type", PStr "application/json");
    ("Notion-Version", PStr "2022-06-28") ].

(** [data[k1][k2] = v] on nested dicts. *)
Definition dict_set_in (k1 k2 : string) (v : pyval) (d : dict) : dict :=
  match dict_get k1 d with
  | Some (PDict inner) => dict_set k1 (PDict (dict_set k2 v inner)) d
  | _ => d
  end.

Definition notion_data (notion_db : string) (payload : ContactPayload) : dict :=
  let data :=
    [ ("parent", PDict [("database_id", PStr notion_db)]);
      ("properties", PDict
        [ ("Name", PDict [("title",
             PList [PDict [("text", PDict [("content", PStr (name payload))])]])]);
          ("Email", PDict [("email", PStr (email payload))]);
          ("Company", PDict [("rich_text",
             PList [PDict [("text",
               PDict [("content", PStr (or_else (company payload) ""))])]])]);
          ("Source", PDict [("select",
             PDict [("name", PStr (or_else (source payload) "website"))])]) ]) ] in
  dict_set_in "properties" "Message"
    (PDict [("rich_text",
       PList [PDict [("text",
         PDict [("content", PStr (slice_to 1900 (message payload)))])]])])
    data.

(** Lines 93-104: the storage sink.  No configuration is consulted. *)
Definition save_document (w : World) (payload : ContactPayload)
  : Run (option string) :=
  try_except
    (id <- call (CreateDocument "contact" (contact_document w payload))
                (create_document w "contact" (contact_document w payload)) ;;
     ret (Some id))
    (fun e => ret None).

(** Lines 113-129: the email sink, given the settings read before it. *)
Definition send_email (w : World) (payload : ContactPayload)
    (email_status smtp_host : option string) (smtp_port : Z)
    (smtp_user smtp_pass notify_to : option string) : Run (option string) :=
  if truthy smtp_host && truthy smtp_user && truthy smtp_pass
     && truthy notify_to
  then
    try_except
      (let msg :=
         Mime [ ("From", the smtp_user); ("To", the notify_to);
                ("Subject", "New MC Creative Director AI inquiry") ]
              [ ("plain", email_body payload) ] in
       call_unit (SmtpConnect (the smtp_host) smtp_port 10)
                 (smtp_connect w (the smtp_host) smtp_port) ;;;
       with_exit
         (call_unit SmtpStartTls (smtp_starttls w) ;;;
          call_unit (SmtpLogin (the smtp_user) (the smtp_pass))
                    (smtp_login w (the smtp_user) (the smtp_pass)) ;;;
          call_unit (SmtpSendmail (the smtp_user) (the notify_to) msg)
                    (smtp_sendmail w (the smtp_user) (the notify_to) msg))
         (call_unit SmtpQuit (smtp_quit w)) ;;;
       ret (Some "sent"))
      (fun e => ret (Some ("error: " +:+ slice_to 80 (exn_str e))))
  else ret email_status.

Definition notion_url : string := "https://api.notion.com/v1/pages".

(** Lines 135-159: the Notion sink, given the settings read before it. *)
Definition create_notion_page (w : World) (payload : ContactPayload)
    (notion_status notion_token notion_db : option string)
  : Run (option string) :=
  if truthy notion_token && truthy notion_db
  then
    try_except
      (let headers := notion_headers (the notion_token) in
       let data := notion_data (the notion_db) payload in
       resp <- call (RequestsPost notion_url (PDict data) headers 10)
                    (requests_post w notion_url (PDict data) headers) ;;
       if bool_decide (status_code resp = 200 \/ status_code resp = 201)
       then ret (Some "created")
       else ret (Some ("error: " +:+ pretty (status_code resp) +:+ " "
                       +:+ slice_to 80 (text resp))))
      (fun e => ret (Some ("error: " +:+ slice_to 80 (exn_str e))))
  else ret notion_status.

(** The handler: the three blocks in the order of the source, with the
    reads of the environment between them. *)
Definition contact (w : World) (payload : ContactPayload) : Run dict :=
  doc_id <- save_document w payload ;;
  let email_status : option string := None in
  let smtp_host := getenv w "SMTP_HOST" in
  smtp_port <- int_ (getenv_default w "SMTP_PORT" "587") ;;
  let smtp_user := getenv w "SMTP_USER" in
  let smtp_pass := getenv w "SMTP_PASS" in
  let notify_to := getenv w "NOTIFY_EMAIL" in
  email_status <-
    send_email w payload email_status smtp_host smtp_port smtp_user smtp_pass
      notify_to ;;
  let notion_status : option string := None in
  let notion_token := getenv w "NOTION_TOKEN" in
  let notion_db := getenv w "NOTION_DATABASE_ID" in
  notion_status <-
    create_notion_page w payload notion_status notion_token notion_db ;;
  ret [ ("ok", PBool true);
        ("id", of_opt doc_id);
        ("email_status", of_opt email_status);
        ("notion_status", of_opt notion_status) ].

(** The request body as the framework sees it, field by field: the key is
    missing, carries JSON [null], or carries a string. *)
Inductive field := Missing | Null | Str (s : string).

Record RawBody := {
  raw_name : field;
  raw_email : field;
  raw_company : field;
  raw_message : field;
  raw_source : field
}.

(** A field declared [x: str]: required, any string is accepted. *)
Definition required_str (f : field) : option string :=
  match f with Str s => Some s | _ => None end.

(** A field declared [x: Optional[str] = d]. *)
Definition optional_str (d : option string) (f : field) : option string :=
  match f with Missing => d | Null => None | Str s => Some s end.

(** Construction of [ContactPayload] from the body, following the class
    declaration: [name: str], [email: EmailStr], [company: Optional[str] =
    None], [message: str], [source: Optional[str] = "website"]. *)
Definition validate (w : World) (b : RawBody) : option ContactPayload :=
  n ← required_str (raw_name b);
  e ← required_str (raw_email b);
  e' ← email_validator w e;
  m ← required_str (raw_message b);
  Some {| name := n; email := e';
          company := optional_str None (raw_company b);
          message := m;
          source := optional_str (Some "website") (raw_source b) |}.

(** What the client receives: the handler's dict with status 200, the
    framework's 422 when the body does not validate, its 500 when the
    handler raises. *)
Inductive http_reply :=
| Ok200 (body : dict)
| UnprocessableEntity422
| InternalServerError500.


Definition reply_of {St} (r : St * result dict) : St * http_reply :=
  match r with
  | (s, Returned body) => (s, Ok200 body)
  | (s, Raised _) => (s, InternalServerError500)
  end.

(** The route [POST /api/contact]: the log of external calls and the reply. *)
Definition post_contact (w : World) (b : RawBody) : list event * http_reply :=
  match validate w b with
  | None => ([], UnprocessableEntity422)
  | Some payload => reply_of (contact w payload [])
  end.

(** *** [GET /test] *)

(** [response[k] = v] on the handler's local dict. *)
Definition set_item (k : string) (v : pyval) : @M dict unit :=
  modify (dict_set k v).

(** The handler runs over its local [response] dict.  [hasattr(db, 'name')]
    followed by [db.name] is one lookup here: both see the same attribute. *)
Definition test_database (w : World) : @M dict dict :=
  modify (fun _ =>
    [ ("backend", PStr "✅ Running");
      ("database", PStr "❌ Not Available");
      ("database_url", PNone);
      ("database_name", PNone);
      ("connection_status", PStr "Not Connected");
      ("collections", PList []) ]) ;;;
  try_except2
    (db <- lift (import_db w) ;;
     match db with
     | Some db =>
         set_item "database" (PStr "✅ Available") ;;;
         set_item "database_url" (PStr "✅ Configured") ;;;
         attr <- lift (db_name db) ;;
         set_item "database_name"
           (match attr with Some v => v | None => PStr "✅ Connected" end) ;;;
         set_item "connection_status" (PStr "Connected") ;;;
         try_except
           (collections <- lift (list_collection_names db) ;;
            set_item "collections" (PList (PStr <$> take 10 collections)) ;;;
            set_item "database" (PStr "✅ Connected & Working"))
           (fun e =>
              set_item "database"
                (PStr ("⚠️  Connected but Error: " +:+ slice_to 50 (exn_str e))))
     | None =>
         set_item "database" (PStr "⚠️  Available but not initialized")
     end)
    (set_item "database" (PStr "❌ Database module not found (run enable-database first)"))
    (fun e => set_item "database" (PStr ("❌ Error: " +:+ slice_to 50 (exn_str e)))) ;;;
  set_item "database_url"
    (PStr (if truthy (getenv w "DATABASE_URL") then "✅ Set" else "❌ Not Set")) ;;;
  set_item "database_name"
    (PStr (if truthy (getenv w "DATABASE_NAME") then "✅ Set" else "❌ Not Set")) ;;;
  get.

(** The route [GET /test]. *)
Definition get_test (w : World) : http_reply := (reply_of (test_database w [])).2.

(** The route [GET /api/plans]. *)
Definition get_api_plans (w : World) : list event * http_reply :=
  reply_of (get_plans w []).

(** ** Concrete worlds for the examples *)

Fixpoint split_at (c : ascii) (s : string) : option (string * string) :=
  match s with
  | EmptyString => None
  | String c' s' =>
      if Ascii.eqb c c' then Some (EmptyString, s')
      else prod_map (String c') id <$> split_at c s'
  end.

(** A stand-in for the [EmailStr] check, used only to run examples: one
    ["@"] with something on both sides, returned unchanged. *)
Definition sample_email_validator (s : string) : option string :=
  match split_at "@"%char s with
  | Some (local_part, domain) =>
      if str_truthy local_part && str_truthy domain
         && bool_decide (split_at "@"%char domain = None)
      then Some s else None
  | None => None
  end.

(** Nothing is configured and every collaborator answers normally. *)
Definition quiet_world : World := {|
  environ := ∅;
  utcnow := Datetime 2024 3 9 7 5 1 0;
  email_validator := sample_email_validator;
  create_document := fun _ _ => Returned "665f1c0a";
  smtp_connect := fun _ _ => None;
  smtp_starttls := None;
  smtp_login := fun _ _ => None;
  smtp_sendmail := fun _ _ _ => None;
  smtp_quit := None;
  requests_post := fun _ _ _ => Returned (HttpResponse 200 "{}");
  import_db := Returned None
|}.

Definition with_environ (env : gmap string string) (w : World) : World := {|
  environ := env;
  utcnow := utcnow w;
  email_validator := email_validator w;
  create_document := create_document w;
  smtp_connect := smtp_connect w;
  smtp_starttls := smtp_starttls w;
  smtp_login := smtp_login w;
  smtp_sendmail := smtp_sendmail w;
  smtp_quit := smtp_quit w;
  requests_post := requests_post w;
  import_db := import_db w
|}.

Definition with_create_document (f : string -> dict -> result string)
    (w : World) : World := {|
  environ := environ w;
  utcnow := utcnow w;
  email_validator := email_validator w;
  create_document := f;
  smtp_connect := smtp_connect w;
  smtp_starttls := smtp_starttls w;
  smtp_login := smtp_login w;
  smtp_sendmail := smtp_sendmail w;
  smtp_quit := smtp_quit w;
  requests_post := requests_post w;
  import_db := import_db w
|}.

Definition with_requests_post
    (f : string -> pyval -> dict -> result http_response) (w : World)
  : World := {|
  environ := environ w;
  utcnow := utcnow w;
  email_validator := email_validator w;
  create_document := create_document w;
  smtp_connect := smtp_connect w;
  smtp_starttls := smtp_starttls w;
  smtp_login := smtp_login w;
  smtp_sendmail := smtp_sendmail w;
  smtp_quit := smtp_quit w;
  requests_post := f;
  import_db := import_db w
|}.

Definition with_smtp_login (f : string -> string -> option exn) (w : World)
  : World := {|
  environ := environ w;
  utcnow := utcnow w;
  email_validator := email_validator w;
  create_document := create_document w;
  smtp_connect := smtp_connect w;
  smtp_starttls := smtp_starttls w;
  smtp_login := f;
  smtp_sendmail := smtp_sendmail w;
  smtp_quit := smtp_quit w;
  requests_post := requests_post w;
  import_db := import_db w
|}.

Definition with_import_db (r : result (option db_handle)) (w : World)
  : World := {|
  environ := environ w;
  utcnow := utcnow w;
  email_validator := email_validator w;
  create_document := create_document w;
  smtp_connect := smtp_connect w;
  smtp_starttls := smtp_starttls w;
  smtp_login := smtp_login w;
  smtp_sendmail := smtp_sendmail w;
  smtp_quit := smtp_quit w;
  requests_post := requests_post w;
  import_db := r
|}.

Definition smtp_env : gmap string string :=
  {[ "SMTP_HOST" := "mail.example.org"; "SMTP_USER" := "bot@example.org";
     "SMTP_PASS" := "hunter2"; "NOTIFY_EMAIL" := "owner@example.org" ]}.

Definition notion_env : gmap string string :=
  {[ "NOTION_TOKEN" := "secret_abc"; "NOTION_DATABASE_ID" := "db42" ]}.

Definition store_outage : string -> dict -> result string :=
  fun _ _ => Raised (Exn OtherException "Database not available").

Definition sample_payload : ContactPayload := {|
  name := "Ada"; email := "a@b.com"; company := None;
  message := "hi"; source := Some "website"
|}.

Fixpoint repeat_char (c : ascii) (n : nat) : string :=
  match n with O => EmptyString | S n' => String c (repeat_char c n') end.

(** ** Reading a reply *)

Fixpoint strip_prefix (p s : string) : option string :=
  match p, s with
  | EmptyString, _ => Some s
  | String a p', String b s' => if Ascii.eqb a b then strip_prefix p' s' else None
  | String _ _, EmptyString => None
  end.

(** The outcome of one sink, as the reply encodes it in a status field:
    [None] when the sink was not attempted, the sink's success word, or
    ["error: "] followed by a reason. *)
Inductive sink_result := Skipped | Succeeded | Failed (reason : string).

Definition sink_result_of (success : string) (v : pyval) : option sink_result :=
  match v with
  | PNone => Some Skipped
  | PStr s =>
      if String.eqb s success then Some Succeeded
      else Failed <$> strip_prefix "error: " s
  | _ => None
  end.

Definition email_result (body : dict) : option sink_result :=
  dict_get "email_status" body ≫= sink_result_of "sent".

Definition notion_result (body : dict) : option sink_result :=
  dict_get "notion_status" body ≫= sink_result_of "created".

(** The settings behind the two configuration gates of [contact], and the
    gates as tests on the world. *)
Definition email_settings : list string :=
  ["SMTP_HOST"; "SMTP_USER"; "SMTP_PASS"; "NOTIFY_EMAIL"].

Definition notion_settings : list string :=
  ["NOTION_TOKEN"; "NOTION_DATABASE_ID"].

Definition all_truthy (w : World) (keys : list string) : bool :=
  forallb (fun k => truthy (getenv w k)) keys.

(** [SMTP_PORT] is unset, or set to a string that [int] accepts. *)
Definition smtp_port_parses (w : World) : bool :=
  bool_decide (is_Some (py_int (getenv_default w "SMTP_PORT" "587"))).

Definition is_smtp (ev : event) : bool :=
  match ev with
  | SmtpConnect _ _ _ | SmtpStartTls | SmtpLogin _ _ | SmtpSendmail _ _ _
  | SmtpQuit => true
  | _ => false
  end.

(** The identifier the storage sink ends with. *)
Definition stored_id (w : World) (payload : ContactPayload) : option string :=
  match create_document w "contact" (contact_document w payload) with
  | Returned id => Some id
  | Raised _ => None
  end.

(** Reading the request sent to Notion: [item k v] is [v[k]], and
    [message_content] the text of the page's Message property. *)
Definition as_dict (v : pyval) : option dict :=
  match v with PDict d => Some d | _ => None end.

Definition item (k : string) (v : pyval) : option pyval :=
  as_dict v ≫= dict_get k.

Definition message_content (json : pyval) : option string :=
  properties ← item "properties" json;
  property ← item "Message" properties;
  rich_text ← item "rich_text" property;
  match rich_text with
  | PList [block] =>
      t ← item "text" block;
      c ← item "content" t;
      match c with PStr s => Some s | _ => None end
  | _ => None
  end.

(** The end of a run with the reply's [id] blanked. *)
Definition forget_id (r : result dict) : result dict :=
  match r with
  | Returned d => Returned (dict_set "id" PNone d)
  | Raised e => Raised e
  end.

(** ** Vocabulary of the statements and further sample inputs *)

(** A run is framed when it appends to the log it starts from and is
    otherwise blind to it. *)
Definition framed {A} (m : Run A) : Prop :=
  forall log, m log = (log ++ (m []).1, (m []).2).

(** Notion is configured, email is not, and [SMTP_PORT] is not a number. *)
Definition bad_port_world : World :=
  with_environ (<["SMTP_PORT" := "abc"]> notion_env) quiet_world.

(** Both optional sinks are configured and the store is down. *)
Definition outage_world : World :=
  with_environ (smtp_env ∪ notion_env)
    (with_create_document store_outage quiet_world).

(** All four email settings are set, [SMTP_HOST] to the empty string. *)
Definition empty_host_world : World :=
  with_environ (<["SMTP_HOST" := ""]> smtp_env) quiet_world.

Definition is_requests_post (ev : event) : bool :=
  match ev with RequestsPost _ _ _ _ => true | _ => false end.

Definition long_message_world : World :=
  with_environ notion_env quiet_world.

Definition long_message_payload : ContactPayload := {|
  name := "Ada"; email := "a@b.com"; company := Some "Analytical Engines";
  message := repeat_char "m" 5000; source := None
|}.

(** The answer the Notion request of a submission gets. *)
Definition notion_answer (w : World) (p : ContactPayload) : result http_response :=
  requests_post w notion_url
    (PDict (notion_data (the (getenv w "NOTION_DATABASE_ID")) p))
    (notion_headers (the (getenv w "NOTION_TOKEN"))).

(** Notion answers 500 with a body of 100 characters. *)
Definition notion_500_world : World :=
  with_requests_post
    (fun _ _ _ => Returned (HttpResponse 500 (repeat_char "x" 100)))
    (with_environ notion_env quiet_world).

(** The mail server refuses the login with a long message. *)
Definition smtp_refused_world : World :=
  with_smtp_login
    (fun _ _ => Some (Exn OtherException
                        ("(535, b'5.7.8 Username and Password not accepted. "
                         +:+ repeat_char "." 80 +:+ "')")))
    (with_environ smtp_env quiet_world).





Definition tier_is (t : dict) (id : string) (hours : Z)
    (stripe paypal : option string) : Prop :=
  dict_get "id" t = Some (PStr id)
  /\ dict_get "hours" t = Some (PInt hours)
  /\ dict_get "features" t = Some features
  /\ dict_get "stripe_url" t
     = Some (match stripe with Some url => PStr url | None => PNone end)
  /\ dict_get "paypal_url" t
     = Some (match paypal with Some url => PStr url | None => PNone end).

(** What the outer handlers of [test_database] write into [database]. *)
Definition outer_failure (e : exn) : string :=
  if is_import_error e
  then "❌ Database module not found (run enable-database first)"
  else "❌ Error: " +:+ slice_to 50 (exn_str e).

Definition twelve_collections : list string :=
  ["c01"; "c02"; "c03"; "c04"; "c05"; "c06";
   "c07"; "c08"; "c09"; "c10"; "c11"; "c12"].

(** The database is up, with twelve collections and both variables set. *)
Definition live_db_world : World :=
  with_import_db
    (Returned (Some (DbHandle (Returned (Some (PStr "prod")))
                              (Returned twelve_collections))))
    (with_environ {[ "DATABASE_URL" := "mongodb://u:pw@db.internal:27017";
                     "DATABASE_NAME" := "prod" ]} quiet_world).

(** ** Vocabulary for the order and the content of the external calls *)

(** The value a setting has once its gate is open. *)
Definition setting (w : World) (k : string) : string := the (getenv w k).

(** The message the email block builds. *)
Definition inquiry_message (smtp_user notify_to : string)
    (payload : ContactPayload) : mime :=
  Mime [ ("From", smtp_user); ("To", notify_to);
         ("Subject", "New MC Creative Director AI inquiry") ]
       [ ("plain", email_body payload) ].

(** The SMTP calls of one pass through the email block, read off the
    answers of the mail server: each call is made only when the one before
    it returned, and the [with] statement issues QUIT once it was entered. *)
Definition smtp_session_log (w : World) (h : string) (port : Z)
    (u pw t : string) (msg : mime) : list event :=
  SmtpConnect h port 10 ::
  match smtp_connect w h port with
  | Some _ => []
  | None =>
      SmtpStartTls ::
      match smtp_starttls w with
      | Some _ => []
      | None =>
          SmtpLogin u pw ::
          match smtp_login w u pw with
          | Some _ => []
          | None => [SmtpSendmail u t msg]
          end
      end ++ [SmtpQuit]
  end.

(** Every SMTP call of the session returned normally. *)
Definition smtp_session_ok (w : World) (h : string) (port : Z)
    (u pw t : string) (msg : mime) : bool :=
  bool_decide (smtp_connect w h port = None /\ smtp_starttls w = None
               /\ smtp_login w u pw = None /\ smtp_sendmail w u t msg = None
               /\ smtp_quit w = None).

(** The calls of a log that are not SMTP calls. *)
Definition other_than_smtp (log : list event) : list event :=
  filter (fun ev => is_smtp ev = false) log.

(** The end of a run with one field of the reply blanked. *)
Definition forget_field (k : string) (r : result dict) : result dict :=
  match r with
  | Returned d => Returned (dict_set k PNone d)
  | Raised e => Raised e
  end.

(** Two worlds that differ at most in what the mail server answers. *)
Definition same_outside_smtp (w w' : World) : Prop :=
  environ w = environ w' /\ utcnow w = utcnow w'
  /\ create_document w = create_document w'
  /\ requests_post w = requests_post w'.

(** [v[k1][k2]...], where the key ["0"] takes the first item of a list. *)
Fixpoint lookup_path (ks : list string) (v : pyval) : option pyval :=
  match ks with
  | [] => Some v
  | k :: ks' =>
      match v with
      | PDict d => dict_get k d ≫= lookup_path ks'
      | PList (x :: _) => if String.eqb k "0" then lookup_path ks' x else None
      | _ => None
      end
  end.


(** A body with every optional field present. *)
Definition full_body : RawBody := {|
  raw_name := Str "Ada"; raw_email := Str "a@b.com";
  raw_company := Str "Analytical Engines"; raw_message := Str "hi";
  raw_source := Null
|}.

(** ** Sanity checks of the library models *)

Example py_int_default_port : py_int "587" = Some 587.
Proof. reflexivity. Qed.

Example py_int_signed_underscore : py_int " -5_0 " = Some (-50).
Proof. reflexivity. Qed.

Example py_int_leading_zeros : py_int "007" = Some 7.
Proof. reflexivity. Qed.

Example py_int_rejects :
  py_int "abc" = None /\ py_int "" = None /\ py_int "5__0" = None
  /\ py_int "5_" = None /\ py_int "_1" = None /\ py_int "1 2" = None.
Proof. repeat split; reflexivity. Qed.

Example isoformat_whole_second :
  isoformat (Datetime 2024 3 9 7 5 1 0) = "2024-03-09T07:05:01+00:00".
Proof. vm_compute. reflexivity. Qed.

Example isoformat_microseconds :
  isoformat (Datetime 2024 3 9 7 5 1 1234) = "2024-03-09T07:05:01.001234+00:00".
Proof. vm_compute. reflexivity. Qed.

Example status_code_in_decimal : pretty 404 = "404".
Proof. vm_compute. reflexivity. Qed.

(** ** Generic facts *)

Lemma slice_to_length n s :
  String.length (slice_to n s) = Nat.min n (String.length s).
Proof.
  revert s; induction n as [|n IH]; intros [|c s]; simpl; auto.
Qed.

Lemma slice_to_all n s : (String.length s <= n)%nat -> slice_to n s = s.
Proof.
  revert s; induction n as [|n IH]; intros [|c s]; simpl; intros H;
    try reflexivity; try lia.
  f_equal; apply IH; lia.
Qed.

Lemma slice_to_prefix n s : exists rest, s = slice_to n s +:+ rest.
Proof.
  revert s; induction n as [|n IH]; intros s.
  - exists s; reflexivity.
  - destruct s as [|c s]; [exists EmptyString; reflexivity|].
    destruct (IH s) as [rest Hr]. exists rest.
    change (String c s = String c (slice_to n s +:+ rest)). now f_equal.
Qed.

Lemma strip_prefix_app p s : strip_prefix p (p +:+ s) = Some s.
Proof.
  induction p as [|a p IH]; simpl; [reflexivity|].
  rewrite Ascii.eqb_refl. exact IH.
Qed.

Lemma truthy_false o : truthy o = false <-> o = None \/ o = Some "".
Proof.
  destruct o as [[|c s]|]; simpl; split; intros H; auto;
    try discriminate; destruct H; discriminate.
Qed.

Lemma take_length_le {A} (n : nat) (l : list A) : (length (take n l) <= n)%nat.
Proof. rewrite length_take. lia. Qed.

Lemma filter_none {A} (P : A -> Prop) `{!forall x, Decision (P x)} (l : list A) :
  (forall x, x ∈ l -> ~ P x) -> filter P l = [].
Proof.
  induction l as [|x l IH]; intros Hno; [reflexivity|].
  rewrite filter_cons_False by (apply Hno; now left).
  apply IH. intros y Hy. apply Hno. now right.
Qed.

(** *** The log only grows *)

Lemma framed_ret {A} (a : A) : framed (ret a).
Proof. intros log; unfold ret; simpl; now rewrite app_nil_r. Qed.

Lemma framed_raise {A} (e : exn) : framed (@raise _ A e).
Proof. intros log; unfold raise; simpl; now rewrite app_nil_r. Qed.

Lemma framed_bind {A B} (m : Run A) (k : A -> Run B) :
  framed m -> (forall a, framed (k a)) -> framed (bind m k).
Proof.
  intros Hm Hk log. unfold bind. rewrite (Hm log).
  destruct (m []) as [l1 [a|e]]; simpl; [|reflexivity].
  rewrite (Hk a (log ++ l1)), (Hk a l1). simpl. now rewrite app_assoc.
Qed.

Lemma framed_try_except {A} (m : Run A) (h : exn -> Run A) :
  framed m -> (forall e, framed (h e)) -> framed (try_except m h).
Proof.
  intros Hm Hh log. unfold try_except. rewrite (Hm log).
  destruct (m []) as [l1 [a|e]]; simpl; [reflexivity|].
  rewrite (Hh e (log ++ l1)), (Hh e l1). simpl. now rewrite app_assoc.
Qed.

Lemma framed_with_exit (body leave : Run unit) :
  framed body -> framed leave -> framed (with_exit body leave).
Proof.
  intros Hb Hl log. unfold with_exit. rewrite (Hb log).
  destruct (body []) as [l1 [a|e]]; simpl;
    rewrite (Hl (log ++ l1)), (Hl l1);
    destruct (leave []) as [l2 [u|e']]; simpl; now rewrite app_assoc.
Qed.

Lemma framed_call {A} ev (r : result A) : framed (call ev r).
Proof. intros log. reflexivity. Qed.

Lemma framed_call_unit ev r : framed (call_unit ev r).
Proof. intros log. reflexivity. Qed.

Lemma framed_int s : framed (int_ s).
Proof. unfold int_. destruct (py_int s); [apply framed_ret|apply framed_raise]. Qed.

Lemma framed_if {A} (b : bool) (m1 m2 : Run A) :
  framed m1 -> framed m2 -> framed (if b then m1 else m2).
Proof. now destruct b. Qed.

Ltac solve_framed := cbv zeta; repeat first
  [ apply framed_call | apply framed_call_unit | apply framed_int
  | apply framed_ret | apply framed_raise
  | apply framed_try_except; [|intros]
  | apply framed_with_exit
  | apply framed_if
  | apply framed_bind; [|intros] ].

(** *** The three blocks of [contact] *)

Lemma save_document_run w p log :
  save_document w p log
  = (log ++ [CreateDocument "contact" (contact_document w p)],
     Returned (stored_id w p)).
Proof.
  unfold save_document, stored_id, try_except, bind, call, modify, lift, ret.
  destruct (create_document w "contact" (contact_document w p)); reflexivity.
Qed.

Lemma send_email_framed w p st h port u pw t :
  framed (send_email w p st h port u pw t).
Proof. unfold send_email. solve_framed. Qed.

Lemma create_notion_page_framed w p st tok db :
  framed (create_notion_page w p st tok db).
Proof.
  unfold create_notion_page. solve_framed.
Qed.

(** The email block never raises.  Behind a closed gate it does nothing;
    behind an open one it starts with the connection and ends in ["sent"]
    or in ["error: "] and at most 80 characters of some exception text. *)
Lemma send_email_cases w p h port u pw t :
  exists evs st,
    send_email w p None h port u pw t [] = (evs, Returned st) /\
    if truthy h && truthy u && truthy pw && truthy t
    then (exists rest, evs = SmtpConnect (the h) port 10 :: rest
                       /\ Forall (fun ev => is_smtp ev = true) rest)
         /\ (st = Some "sent"
             \/ exists e, st = Some ("error: " +:+ slice_to 80 (exn_str e)))
    else evs = [] /\ st = None.
Proof.
  unfold send_email.
  destruct (truthy h && truthy u && truthy pw && truthy t).
  2: { do 2 eexists; split; [reflexivity|auto]. }
  unfold try_except, bind, with_exit, call_unit, modify, lift_unit, ret; simpl.
  destruct (smtp_connect w (the h) port) as [e0|]; simpl.
  { do 2 eexists; split; [reflexivity|]; split; eauto. }
  destruct (smtp_starttls w) as [e1|]; simpl;
    [|destruct (smtp_login w (the u) (the pw)) as [e2|]; simpl;
      [|destruct (smtp_sendmail w (the u) (the t) _) as [e3|]; simpl]];
    destruct (smtp_quit w) as [e4|]; simpl;
    (do 2 eexists; split; [reflexivity|]; split;
     [eexists; split; [reflexivity|repeat constructor]|eauto]).
Qed.

(** The Notion block never raises either, and makes at most one request:
    the page-creation POST with the payload of [notion_data]. *)
Lemma create_notion_page_cases w p tok db :
  let data := PDict (notion_data (the db) p) in
  let headers := notion_headers (the tok) in
  exists st,
    create_notion_page w p None tok db []
    = ((if truthy tok && truthy db
        then [RequestsPost notion_url data headers 10] else []),
       Returned st) /\
    if truthy tok && truthy db
    then match requests_post w notion_url data headers with
         | Returned resp =>
             st = Some (if bool_decide (status_code resp = 200
                                        \/ status_code resp = 201)
                        then "created"
                        else "error: " +:+ pretty (status_code resp) +:+ " "
                             +:+ slice_to 80 (text resp))
         | Raised e => st = Some ("error: " +:+ slice_to 80 (exn_str e))
         end
    else st = None.
Proof.
  intros data headers. unfold create_notion_page.
  destruct (truthy tok && truthy db).
  2: { eexists; split; reflexivity. }
  unfold try_except, bind, call, modify, lift, ret; simpl.
  fold data headers.
  destruct (requests_post w notion_url data headers) as [resp|e]; simpl.
  - destruct (bool_decide _); eexists; split; reflexivity.
  - eexists; split; reflexivity.
Qed.

(** *** The handler as a whole *)

Lemma contact_bad_port w p :
  py_int (getenv_default w "SMTP_PORT" "587") = None ->
  contact w p []
  = ([CreateDocument "contact" (contact_document w p)],
     Raised (Exn ValueError
               ("invalid literal for int() with base 10: '"
                +:+ getenv_default w "SMTP_PORT" "587" +:+ "'"))).
Proof.
  intros H. unfold contact, bind. rewrite save_document_run.
  unfold int_. rewrite H. reflexivity.
Qed.

Lemma contact_run w p port :
  py_int (getenv_default w "SMTP_PORT" "587") = Some port ->
  exists elog est nlog nst,
    send_email w p None (getenv w "SMTP_HOST") port (getenv w "SMTP_USER")
      (getenv w "SMTP_PASS") (getenv w "NOTIFY_EMAIL") [] = (elog, Returned est)
    /\ create_notion_page w p None (getenv w "NOTION_TOKEN")
         (getenv w "NOTION_DATABASE_ID") [] = (nlog, Returned nst)
    /\ contact w p []
       = (CreateDocument "contact" (contact_document w p) :: elog ++ nlog,
          Returned [ ("ok", PBool true);
                     ("id", of_opt (stored_id w p));
                     ("email_status", of_opt est);
                     ("notion_status", of_opt nst) ]).
Proof.
  intros H.
  destruct (send_email_cases w p (getenv w "SMTP_HOST") port
              (getenv w "SMTP_USER") (getenv w "SMTP_PASS")
              (getenv w "NOTIFY_EMAIL")) as (elog & est & He & _).
  destruct (create_notion_page_cases w p (getenv w "NOTION_TOKEN")
              (getenv w "NOTION_DATABASE_ID")) as (nst & Hn & _).
  do 4 eexists. split; [exact He|]. split; [exact Hn|].
  unfold contact, bind. rewrite save_document_run.
  unfold int_. rewrite H. unfold ret at 1. cbv beta iota.
  rewrite send_email_framed, He. cbv beta iota.
  rewrite create_notion_page_framed, Hn. reflexivity.
Qed.

Lemma send_email_log w p h port u pw t evs r :
  send_email w p None h port u pw t [] = (evs, r) ->
  forall ev, ev ∈ evs -> is_smtp ev = true.
Proof.
  intros H ev Hin.
  destruct (send_email_cases w p h port u pw t) as (evs' & st & E & C).
  rewrite E in H; injection H as -> _.
  destruct (truthy h && truthy u && truthy pw && truthy t).
  - destruct C as [(rest & -> & Hall) _].
    apply elem_of_cons in Hin as [->|Hin]; [reflexivity|].
    eapply Forall_forall in Hall; eauto.
  - destruct C as [-> _]. now apply elem_of_nil in Hin.
Qed.

Lemma port_of w :
  smtp_port_parses w = true ->
  exists port, py_int (getenv_default w "SMTP_PORT" "587") = Some port.
Proof. intros H. apply bool_decide_eq_true in H as [port H]. eauto. Qed.

Lemma all_truthy_email w :
  all_truthy w email_settings
  = truthy (getenv w "SMTP_HOST") && truthy (getenv w "SMTP_USER")
    && truthy (getenv w "SMTP_PASS") && truthy (getenv w "NOTIFY_EMAIL").
Proof.
  unfold all_truthy; simpl.
  repeat destruct (truthy _); reflexivity.
Qed.

Lemma all_truthy_notion w :
  all_truthy w notion_settings
  = truthy (getenv w "NOTION_TOKEN") && truthy (getenv w "NOTION_DATABASE_ID").
Proof.
  unfold all_truthy; simpl.
  repeat destruct (truthy _); reflexivity.
Qed.

(** A closed gate is a setting that is unset or empty. *)
Lemma all_truthy_false w keys :
  all_truthy w keys = false
  <-> exists k, k ∈ keys /\ (getenv w k = None \/ getenv w k = Some "").
Proof.
  unfold all_truthy. induction keys as [|k keys IH]; simpl.
  - split; [discriminate|]. intros (k & Hk & _). now apply elem_of_nil in Hk.
  - rewrite andb_false_iff, IH, truthy_false. split.
    + intros [H|(k' & Hin & H)].
      * exists k; split; [left|exact H].
      * exists k'; split; [now right|exact H].
    + intros (k' & Hin & H). apply elem_of_cons in Hin as [->|Hin]; eauto.
Qed.

(** ** Properties of the handlers *)



(** C1.  A raised exception of the store's create operation changes nothing
    after it: whatever the store does instead, the handler makes the same
    external calls and ends the same way, the [id] field apart (so the
    email and Notion attempts are made, and [ok: True] is reported, exactly
    as they are with a working store).  With [SMTP_PORT] unset or
    convertible, the SMTP connection is opened when the email sink is
    configured, the Notion request is sent when that sink is configured,
    and the reply carries [ok: True] and a null [id]. *)
Theorem storage_failure_is_isolated (w : World) (p : ContactPayload) (e : exn) :
  create_document w "contact" (contact_document w p) = Raised e ->
  (forall f,
      (contact w p []).1 = (contact (with_create_document f w) p []).1
      /\ forget_id (contact w p []).2
         = forget_id (contact (with_create_document f w) p []).2)
  /\ (smtp_port_parses w = true ->
      (all_truthy w email_settings = true ->
         exists port,
           SmtpConnect (the (getenv w "SMTP_HOST")) port 10 ∈ (contact w p []).1)
      /\ (all_truthy w notion_settings = true ->
         exists json headers,
           RequestsPost notion_url json headers 10 ∈ (contact w p []).1)
      /\ exists body,
           (contact w p []).2 = Returned body
           /\ dict_get "ok" body = Some (PBool true)
           /\ dict_get "id" body = Some PNone).
Proof.
  intros Hfail. split.
  - intros f.
    destruct (py_int (getenv_default w "SMTP_PORT" "587")) as [port|] eqn:Hp.
    + destruct (contact_run w p port Hp)
        as (elog & est & nlog & nst & He & Hn & Hc).
      destruct (contact_run (with_create_document f w) p port Hp)
        as (elog' & est' & nlog' & nst' & He' & Hn' & Hc').
      assert (E1 : (elog, @Returned (option string) est) = (elog', Returned est'))
        by (rewrite <- He; exact He').
      assert (E2 : (nlog, @Returned (option string) nst) = (nlog', Returned nst'))
        by (rewrite <- Hn; exact Hn').
      injection E1 as <- <-. injection E2 as <- <-.
      rewrite Hc, Hc'. split; reflexivity.
    + rewrite (contact_bad_port w p Hp).
      rewrite (contact_bad_port (with_create_document f w) p Hp).
      split; reflexivity.
  - intros Hport. destruct (port_of w Hport) as [port Hp].
    destruct (contact_run w p port Hp)
      as (elog & est & nlog & nst & He & Hn & Hc).
    rewrite Hc; cbn [fst snd]. split; [|split].
    + intros Hcfg. rewrite all_truthy_email in Hcfg.
      destruct (send_email_cases w p (getenv w "SMTP_HOST") port
                  (getenv w "SMTP_USER") (getenv w "SMTP_PASS")
                  (getenv w "NOTIFY_EMAIL")) as (evs & st & E & C).
      rewrite Hcfg in C. destruct C as [(rest & -> & _) _].
      rewrite He in E; injection E as -> _.
      exists port. apply elem_of_cons; right.
      apply elem_of_app; left. apply elem_of_cons; now left.
    + intros Hcfg. rewrite all_truthy_notion in Hcfg.
      destruct (create_notion_page_cases w p (getenv w "NOTION_TOKEN")
                  (getenv w "NOTION_DATABASE_ID")) as (st & E & _).
      rewrite Hcfg, Hn in E; injection E as -> _.
      do 2 eexists. apply elem_of_cons; right.
      apply elem_of_app; right. apply elem_of_cons; now left.
    + eexists; split; [reflexivity|]. split; [reflexivity|].
      unfold stored_id. rewrite Hfail. reflexivity.
Qed.

Lemma storage_failure_is_isolated_witness :
  (exists port,
      SmtpConnect "mail.example.org" port 10
      ∈ (contact outage_world sample_payload []).1)
  /\ (exists json headers,
        RequestsPost notion_url json headers 10
        ∈ (contact outage_world sample_payload []).1)
  /\ exists body,
       (contact outage_world sample_payload []).2 = Returned body
       /\ dict_get "ok" body = Some (PBool true)
       /\ dict_get "id" body = Some PNone.
Proof.
  destruct (storage_failure_is_isolated outage_world sample_payload
              (Exn OtherException "Database not available") eq_refl)
    as [_ H].
  destruct (H eq_refl) as (H1 & H2 & H3).
  split; [exact (H1 eq_refl)|split; [exact (H2 eq_refl)|exact H3]].
Defined.



Lemma sink_result_of_error (success reason : string) :
  String.eqb ("error: " +:+ reason) success = false ->
  sink_result_of success (PStr ("error: " +:+ reason)) = Some (Failed reason).
Proof.
  intros H. unfold sink_result_of. rewrite H.
  now rewrite (strip_prefix_app "error: " reason).
Qed.

(** C3, amended.  With [SMTP_PORT] unset or convertible, the reply is the
    dict with exactly the keys [ok], [id], [email_status], [notion_status]
    in that order: [ok] is [True], the other three are a string or null, [id]
    is what the storage block ended with, and each status reads as one sink
    outcome (skipped, succeeded or failed), whatever any collaborator did. *)
Theorem reply_has_one_slot_per_sink (w : World) (p : ContactPayload) :
  smtp_port_parses w = true ->
  exists (email_status notion_status : option string) (er nr : sink_result),
    (contact w p []).2
    = Returned [ ("ok", PBool true);
                 ("id", of_opt (stored_id w p));
                 ("email_status", of_opt email_status);
                 ("notion_status", of_opt notion_status) ]
    /\ sink_result_of "sent" (of_opt email_status) = Some er
    /\ sink_result_of "created" (of_opt notion_status) = Some nr.
Proof.
  intros Hport. destruct (port_of w Hport) as [port Hp].
  destruct (contact_run w p port Hp) as (elog & est & nlog & nst & He & Hn & Hc).
  destruct (send_email_cases w p (getenv w "SMTP_HOST") port
              (getenv w "SMTP_USER") (getenv w "SMTP_PASS")
              (getenv w "NOTIFY_EMAIL")) as (evs & st & E & C).
  rewrite He in E; injection E as <- <-.
  destruct (create_notion_page_cases w p (getenv w "NOTION_TOKEN")
              (getenv w "NOTION_DATABASE_ID")) as (st & E & D).
  rewrite Hn in E; injection E as _ <-.
  assert (Her : exists er, sink_result_of "sent" (of_opt est) = Some er).
  { destruct (_ && _) in C.
    - destruct C as [_ [->|[e ->]]]; [eexists; reflexivity|].
      eexists. now apply sink_result_of_error.
    - destruct C as [_ ->]. eexists; reflexivity. }
  assert (Hnr : exists nr, sink_result_of "created" (of_opt nst) = Some nr).
  { destruct (_ && _) in D; [|subst nst; eexists; reflexivity].
    destruct (requests_post _ _ _ _) as [resp|e] in D; subst nst.
    - destruct (bool_decide _); [eexists; reflexivity|].
      eexists. now apply sink_result_of_error.
    - eexists. now apply sink_result_of_error. }
  destruct Her as [er Her], Hnr as [nr Hnr].
  exists est, nst, er, nr. rewrite Hc. auto.
Qed.

Lemma reply_has_one_slot_per_sink_witness :
  exists (email_status notion_status : option string) (er nr : sink_result),
    (contact outage_world sample_payload []).2
    = Returned [ ("ok", PBool true);
                 ("id", of_opt (stored_id outage_world sample_payload));
                 ("email_status", of_opt email_status);
                 ("notion_status", of_opt notion_status) ]
    /\ sink_result_of "sent" (of_opt email_status) = Some er
    /\ sink_result_of "created" (of_opt notion_status) = Some nr.
Proof. exact (reply_has_one_slot_per_sink outage_world sample_payload eq_refl). Defined.

(** C3 as written fails twice: the fourth key of the reply is
    [notion_status], so a reply never has the keys [ok], [id],
    [email_status], [api_status]; and with [SMTP_PORT=abc] a valid
    submission gets no reply object at all. *)
Lemma reply_has_no_api_status_key :
  ~ (exists body,
        (contact quiet_world sample_payload []).2 = Returned body
        /\ dict_keys body = ["ok"; "id"; "email_status"; "api_status"])
  /\ ~ (exists body,
          (contact bad_port_world sample_payload []).2 = Returned body).
Proof.
  split.
  - intros (body & H & K). vm_compute in H. injection H as <-. discriminate K.
  - intros (body & H). vm_compute in H. discriminate H.
Qed.

(** C5, amended.  With [SMTP_PORT] unset or convertible, the reply reads as
    one outcome per sink; the email outcome is skipped exactly when one of
    [SMTP_HOST], [SMTP_USER], [SMTP_PASS], [NOTIFY_EMAIL] is unset or set to
    the empty string, and the Notion outcome is skipped exactly when
    [NOTION_TOKEN] or [NOTION_DATABASE_ID] is unset or empty.  An outcome
    that is not skipped is succeeded or failed, so those two occur only
    when every setting of the sink is set and not empty. *)
Theorem skipped_iff_a_setting_is_falsy (w : World) (p : ContactPayload) :
  smtp_port_parses w = true ->
  exists body er nr,
    (contact w p []).2 = Returned body
    /\ email_result body = Some er
    /\ notion_result body = Some nr
    /\ (er = Skipped
        <-> exists k, k ∈ email_settings
                      /\ (getenv w k = None \/ getenv w k = Some ""))
    /\ (nr = Skipped
        <-> exists k, k ∈ notion_settings
                      /\ (getenv w k = None \/ getenv w k = Some "")).
Proof.
  intros Hport. destruct (port_of w Hport) as [port Hp].
  destruct (contact_run w p port Hp) as (elog & est & nlog & nst & He & Hn & Hc).
  destruct (send_email_cases w p (getenv w "SMTP_HOST") port
              (getenv w "SMTP_USER") (getenv w "SMTP_PASS")
              (getenv w "NOTIFY_EMAIL")) as (evs & st & E & C).
  rewrite He in E; injection E as <- <-.
  destruct (create_notion_page_cases w p (getenv w "NOTION_TOKEN")
              (getenv w "NOTION_DATABASE_ID")) as (st & E & D).
  rewrite Hn in E; injection E as _ <-.
  rewrite <- all_truthy_email in C. rewrite <- all_truthy_notion in D.
  assert (Her : exists er, sink_result_of "sent" (of_opt est) = Some er
                  /\ (er = Skipped <-> all_truthy w email_settings = false)).
  { destruct (all_truthy w email_settings).
    - destruct C as [_ [->|[e ->]]].
      + exists Succeeded; split; [reflexivity|]. split; discriminate.
      + eexists; split; [now apply sink_result_of_error|]. split; discriminate.
    - destruct C as [_ ->]. exists Skipped; split; [reflexivity|]. tauto. }
  assert (Hnr : exists nr, sink_result_of "created" (of_opt nst) = Some nr
                  /\ (nr = Skipped <-> all_truthy w notion_settings = false)).
  { destruct (all_truthy w notion_settings).
    - destruct (requests_post _ _ _ _) as [resp|e] in D; subst nst.
      + destruct (bool_decide _).
        * exists Succeeded; split; [reflexivity|]. split; discriminate.
        * eexists; split; [now apply sink_result_of_error|]. split; discriminate.
      + eexists; split; [now apply sink_result_of_error|]. split; discriminate.
    - subst nst. exists Skipped; split; [reflexivity|]. tauto. }
  destruct Her as (er & Her & Hes), Hnr as (nr & Hnr & Hns).
  rewrite all_truthy_false in Hes, Hns.
  eexists. exists er, nr. rewrite Hc. split; [reflexivity|].
  split; [exact Her|]. split; [exact Hnr|]. split; assumption.
Qed.

Lemma skipped_iff_a_setting_is_falsy_witness :
  exists body er nr,
    (contact empty_host_world sample_payload []).2 = Returned body
    /\ email_result body = Some er
    /\ notion_result body = Some nr
    /\ (er = Skipped
        <-> exists k, k ∈ email_settings
                      /\ (getenv empty_host_world k = None
                          \/ getenv empty_host_world k = Some ""))
    /\ (nr = Skipped
        <-> exists k, k ∈ notion_settings
                      /\ (getenv empty_host_world k = None
                          \/ getenv empty_host_world k = Some "")).
Proof.
  exact (skipped_iff_a_setting_is_falsy empty_host_world sample_payload eq_refl).
Defined.

(** C5 as written fails twice.  With [SMTP_HOST] set to the empty string and
    the other three settings set, none of the four is absent and yet the
    email sink is skipped.  With [SMTP_PORT=abc] the four email settings are
    absent and yet no outcome is reported, skipped or other. *)
Lemma skipped_with_all_settings_present :
  (Forall (fun k => is_Some (getenv empty_host_world k)) email_settings
   /\ exists body,
        (contact empty_host_world sample_payload []).2 = Returned body
        /\ email_result body = Some Skipped)
  /\ (Forall (fun k => getenv bad_port_world k = None) email_settings
      /\ forall body,
           (contact bad_port_world sample_payload []).2 <> Returned body).
Proof.
  split; split.
  - repeat constructor; eexists; reflexivity.
  - eexists; split; reflexivity.
  - repeat constructor.
  - intros body H. vm_compute in H. discriminate H.
Qed.

(** *** Message truncation *)

Lemma message_content_notion_data db p :
  message_content (PDict (notion_data db p))
  = Some (slice_to 1900 (message p)).
Proof. reflexivity. Qed.

(** C6.  Every request the handler sends to Notion carries, as the text of
    its Message property, [message[:1900]]: exactly 1900 characters, the
    first 1900, when the message has 5000, and the message itself when it
    has at most 1900.  When the Notion sink is configured (and [SMTP_PORT]
    converts) exactly one such request is sent. *)
Theorem notion_message_is_truncated (w : World) (p : ContactPayload) :
  (forall url json headers timeout,
      RequestsPost url json headers timeout ∈ (contact w p []).1 ->
      exists content,
        message_content json = Some content
        /\ content = slice_to 1900 (message p)
        /\ (String.length (message p) = 5000%nat ->
            String.length content = 1900%nat
            /\ exists rest, message p = content +:+ rest)
        /\ ((String.length (message p) <= 1900)%nat -> content = message p))
  /\ (smtp_port_parses w = true ->
      all_truthy w notion_settings = true ->
      exists json headers,
        filter (fun ev => is_requests_post ev = true) (contact w p []).1
        = [RequestsPost notion_url json headers 10]).
Proof.
  split.
  - intros url json headers timeout Hin.
    assert (Hjson : exists db, json = PDict (notion_data db p)).
    { destruct (py_int (getenv_default w "SMTP_PORT" "587")) as [port|] eqn:Hp.
      - destruct (contact_run w p port Hp)
          as (elog & est & nlog & nst & He & Hn & Hc).
        rewrite Hc in Hin; cbn [fst] in Hin.
        apply elem_of_cons in Hin as [Hin|Hin]; [discriminate Hin|].
        apply elem_of_app in Hin as [Hin|Hin].
        + apply (send_email_log _ _ _ _ _ _ _ _ _ He) in Hin. discriminate Hin.
        + destruct (create_notion_page_cases w p (getenv w "NOTION_TOKEN")
                      (getenv w "NOTION_DATABASE_ID")) as (st & E & _).
          rewrite Hn in E; injection E as -> _.
          destruct (_ && _); [|now apply elem_of_nil in Hin].
          apply list_elem_of_singleton in Hin. injection Hin as _ -> _ _.
          eexists; reflexivity.
      - rewrite (contact_bad_port w p Hp) in Hin; cbn [fst] in Hin.
        apply list_elem_of_singleton in Hin. discriminate Hin. }
    destruct Hjson as [db ->]. exists (slice_to 1900 (message p)).
    split; [apply message_content_notion_data|]. split; [reflexivity|]. split.
    + intros Hlen. split; [rewrite slice_to_length, Hlen; reflexivity|].
      apply slice_to_prefix.
    + apply slice_to_all.
  - intros Hport Hcfg. destruct (port_of w Hport) as [port Hp].
    destruct (contact_run w p port Hp) as (elog & est & nlog & nst & He & Hn & Hc).
    rewrite Hc; cbn [fst].
    destruct (create_notion_page_cases w p (getenv w "NOTION_TOKEN")
                (getenv w "NOTION_DATABASE_ID")) as (st & E & _).
    rewrite Hn in E; injection E as -> _.
    rewrite all_truthy_notion in Hcfg. rewrite Hcfg.
    do 2 eexists. rewrite filter_cons_False by (simpl; discriminate).
    rewrite filter_app.
    assert (Hnil : filter (fun ev => is_requests_post ev = true) elog = []).
    { apply filter_none. intros ev Hev Hpost.
      apply (send_email_log _ _ _ _ _ _ _ _ _ He) in Hev.
      destruct ev; discriminate. }
    rewrite Hnil. reflexivity.
Qed.

Lemma notion_message_is_truncated_witness :
  exists json headers content,
    RequestsPost notion_url json headers 10
    ∈ (contact long_message_world long_message_payload []).1
    /\ message_content json = Some content
    /\ String.length content = 1900%nat.
Proof.
  destruct (notion_message_is_truncated long_message_world long_message_payload)
    as [Hall Hone].
  destruct (Hone eq_refl eq_refl) as (json & headers & Hf).
  assert (Hin : RequestsPost notion_url json headers 10
                ∈ (contact long_message_world long_message_payload []).1).
  { eapply (proj1 (list_elem_of_filter _ _ _)). rewrite Hf. now left. }
  destruct (Hall _ _ _ _ Hin) as (content & Hc & _ & Hlen & _).
  exists json, headers, content. split; [exact Hin|]. split; [exact Hc|].
  exact (proj1 (Hlen eq_refl)).
Defined.

(** *** Failure reasons *)

(** C7, amended.  With [SMTP_PORT] unset or convertible, a failed email
    outcome carries a reason of at most 80 characters, and so does a failed
    Notion outcome when the request raised.  When Notion answered with a
    status other than 200 and 201, the reason is the status code in decimal,
    a space, and the first 80 characters of the response text: the text is
    cut at 80, the reason as a whole is not. *)
Theorem failure_reasons_are_cut (w : World) (p : ContactPayload) :
  smtp_port_parses w = true ->
  exists body,
    (contact w p []).2 = Returned body
    /\ (forall r, email_result body = Some (Failed r) ->
                  (String.length r <= 80)%nat)
    /\ (forall r, notion_result body = Some (Failed r) ->
          match notion_answer w p with
          | Raised e => r = slice_to 80 (exn_str e) /\ (String.length r <= 80)%nat
          | Returned resp =>
              r = pretty (status_code resp) +:+ " " +:+ slice_to 80 (text resp)
              /\ (String.length (slice_to 80 (text resp)) <= 80)%nat
          end).
Proof.
  intros Hport. destruct (port_of w Hport) as [port Hp].
  destruct (contact_run w p port Hp) as (elog & est & nlog & nst & He & Hn & Hc).
  destruct (send_email_cases w p (getenv w "SMTP_HOST") port
              (getenv w "SMTP_USER") (getenv w "SMTP_PASS")
              (getenv w "NOTIFY_EMAIL")) as (evs & st & E & C).
  rewrite He in E; injection E as <- <-.
  destruct (create_notion_page_cases w p (getenv w "NOTION_TOKEN")
              (getenv w "NOTION_DATABASE_ID")) as (st & E & D).
  rewrite Hn in E; injection E as _ <-.
  eexists. rewrite Hc. split; [reflexivity|]. split.
  - intros r. unfold email_result. cbn [dict_get String.eqb Ascii.eqb Bool.eqb mbind option_bind].
    destruct (_ && _) in C.
    + destruct C as [_ [->|[e ->]]]; [discriminate|].
      cbn [of_opt]. rewrite sink_result_of_error by reflexivity.
      intros Hr. replace r with (slice_to 80 (exn_str e)) by congruence.
      rewrite slice_to_length. lia.
    + destruct C as [_ ->]. discriminate.
  - intros r. unfold notion_result, notion_answer.
    cbn [dict_get String.eqb Ascii.eqb Bool.eqb mbind option_bind].
    destruct (_ && _) in D; [|subst nst; discriminate].
    destruct (requests_post _ _ _ _) as [resp|e]; subst nst.
    + destruct (bool_decide _); [discriminate|].
      cbn [of_opt]. rewrite sink_result_of_error by reflexivity.
      intros Hr. split; [congruence|]. rewrite slice_to_length. lia.
    + cbn [of_opt]. rewrite sink_result_of_error by reflexivity.
      intros Hr. replace r with (slice_to 80 (exn_str e)) by congruence.
      split; [reflexivity|]. rewrite slice_to_length. lia.
Qed.

Lemma failure_reasons_are_cut_witness :
  exists body r,
    (contact smtp_refused_world sample_payload []).2 = Returned body
    /\ email_result body = Some (Failed r)
    /\ (String.length r <= 80)%nat.
Proof.
  destruct (failure_reasons_are_cut smtp_refused_world sample_payload eq_refl)
    as (body & Hb & He & _).
  exists body. eexists. split; [exact Hb|].
  assert (Hr : email_result body
               = Some (Failed ("(535, b'5.7.8 Username and Password not accepted. "
                               +:+ repeat_char "." 30))).
  { vm_compute in Hb. injection Hb as <-. reflexivity. }
  split; [exact Hr|]. exact (He _ Hr).
Defined.

(** C7 as written fails: when Notion answers 500 with a body of 100
    characters, the reason in the reply is ["500 "] and 80 characters of the
    body, 84 characters in all. *)
Lemma notion_reason_longer_than_80 :
  exists body r,
    (contact notion_500_world sample_payload []).2 = Returned body
    /\ notion_result body = Some (Failed r)
    /\ String.length r = 84%nat.
Proof. do 2 eexists. split; [reflexivity|]. split; reflexivity. Qed.

(** *** Validation *)


Lemma post_contact_log_of_valid w b p :
  validate w b = Some p ->
  exists rest,
    (post_contact w b).1 = CreateDocument "contact" (contact_document w p) :: rest.
Proof.
  intros Hv. unfold post_contact. rewrite Hv.
  destruct (py_int (getenv_default w "SMTP_PORT" "587")) as [port|] eqn:Hp.
  - destruct (contact_run w p port Hp) as (? & ? & ? & ? & _ & _ & Hc).
    rewrite Hc. eexists; reflexivity.
  - rewrite (contact_bad_port w p Hp). eexists; reflexivity.
Qed.




(** *** The plan catalogue *)

(** C8.  In every environment and from every log, [get_plans] returns, with
    the log untouched, a dict whose [plans] are three tiers in the order
    starter (3 hours), growth (6), scale (9), all with the same feature
    list; each of the six payment links is the value of its environment
    variable, or null when the variable is unset. *)
Theorem plans_are_three_fixed_tiers (w : World) (log : list event) :
  exists starter growth scale,
    get_plans w log
    = (log, Returned [("plans", PList [PDict starter; PDict growth; PDict scale])])
    /\ tier_is starter "starter" 3
         (environ w !! "STRIPE_STARTER_URL") (environ w !! "PAYPAL_STARTER_URL")
    /\ tier_is growth "growth" 6
         (environ w !! "STRIPE_GROWTH_URL") (environ w !! "PAYPAL_GROWTH_URL")
    /\ tier_is scale "scale" 9
         (environ w !! "STRIPE_SCALE_URL") (environ w !! "PAYPAL_SCALE_URL")
    /\ get_api_plans w
       = ([], Ok200 [("plans", PList [PDict starter; PDict growth; PDict scale])]).
Proof.
  do 3 eexists. split; [reflexivity|].
  repeat split; reflexivity.
Qed.

(** *** Diagnostics *)

Lemma test_database_env w w' s :
  import_db w = import_db w' ->
  truthy (getenv w "DATABASE_URL") = truthy (getenv w' "DATABASE_URL") ->
  truthy (getenv w "DATABASE_NAME") = truthy (getenv w' "DATABASE_NAME") ->
  test_database w s = test_database w' s.
Proof.
  intros H1 H2 H3. unfold test_database. now rewrite H1, H2, H3.
Qed.

(** C9.  Whatever the [database] module does, [GET /test] answers 200 with
    the six-field report.  [database] tells what happened: the module or the
    name cannot be imported, the import or the [name] lookup raises,
    [db] is [None] (available but not initialized), listing the collections
    raises (connected, with the error, a warning), or all went well.
    [collections] holds the first ten names of the listing, and nothing
    unless the listing succeeded.  [database_url] and [database_name] are one
    of two fixed words each, chosen by the truthiness of [DATABASE_URL] and
    [DATABASE_NAME], and the report does not change with their values. *)
Theorem diagnostics_always_report (w : World) :
  exists database connection names,
    get_test w
    = Ok200 [ ("backend", PStr "✅ Running");
              ("database", PStr database);
              ("database_url",
               PStr (if truthy (getenv w "DATABASE_URL")
                     then "✅ Set" else "❌ Not Set"));
              ("database_name",
               PStr (if truthy (getenv w "DATABASE_NAME")
                     then "✅ Set" else "❌ Not Set"));
              ("connection_status", PStr connection);
              ("collections", PList (PStr <$> names)) ]
    /\ (length names <= 10)%nat
    /\ match import_db w with
       | Raised e => database = outer_failure e /\ names = []
       | Returned None =>
           database = "⚠️  Available but not initialized" /\ names = []
       | Returned (Some db) =>
           match db_name db, list_collection_names db with
           | Raised e, _ => database = outer_failure e /\ names = []
           | Returned _, Raised e =>
               database = "⚠️  Connected but Error: " +:+ slice_to 50 (exn_str e)
               /\ names = []
           | Returned _, Returned l =>
               database = "✅ Connected & Working" /\ names = take 10 l
           end
       end
    /\ forall env',
         truthy (env' !! "DATABASE_URL") = truthy (getenv w "DATABASE_URL") ->
         truthy (env' !! "DATABASE_NAME") = truthy (getenv w "DATABASE_NAME") ->
         get_test (with_environ env' w) = get_test w.
Proof.
  assert (Henv : forall env',
    truthy (env' !! "DATABASE_URL") = truthy (getenv w "DATABASE_URL") ->
    truthy (env' !! "DATABASE_NAME") = truthy (getenv w "DATABASE_NAME") ->
    get_test (with_environ env' w) = get_test w).
  { intros env' H1 H2. unfold get_test.
    now rewrite (test_database_env (with_environ env' w) w). }
  enough (Hrep : exists database connection names,
    get_test w
    = Ok200 [ ("backend", PStr "✅ Running");
              ("database", PStr database);
              ("database_url",
               PStr (if truthy (getenv w "DATABASE_URL")
                     then "✅ Set" else "❌ Not Set"));
              ("database_name",
               PStr (if truthy (getenv w "DATABASE_NAME")
                     then "✅ Set" else "❌ Not Set"));
              ("connection_status", PStr connection);
              ("collections", PList (PStr <$> names)) ]
    /\ (length names <= 10)%nat
    /\ match import_db w with
       | Raised e => database = outer_failure e /\ names = []
       | Returned None =>
           database = "⚠️  Available but not initialized" /\ names = []
       | Returned (Some db) =>
           match db_name db, list_collection_names db with
           | Raised e, _ => database = outer_failure e /\ names = []
           | Returned _, Raised e =>
               database = "⚠️  Connected but Error: " +:+ slice_to 50 (exn_str e)
               /\ names = []
           | Returned _, Returned l =>
               database = "✅ Connected & Working" /\ names = take 10 l
           end
       end).
  { destruct Hrep as (database & connection & names & HA & HB & HC).
    exists database, connection, names. auto. }
  clear Henv.
  unfold get_test, test_database, try_except2, try_except, bind, set_item,
    modify, lift, get, reply_of, outer_failure.
  destruct (import_db w) as [[db|]|e]; cbn.
  - destruct (db_name db) as [attr|e]; cbn.
    + destruct (list_collection_names db) as [l|e]; cbn.
      * do 3 eexists. split; [reflexivity|].
        split; [apply take_length_le|]. split; reflexivity.
      * exists ("⚠️  Connected but Error: " +:+ slice_to 50 (exn_str e)), "Connected", [].
        split; [reflexivity|]. split; [simpl; lia|]. split; reflexivity.
    + destruct (is_import_error e); cbn;
        (eexists; eexists; exists []; split; [reflexivity|];
         split; [simpl; lia|]; split; reflexivity).
  - eexists; eexists; exists []. split; [reflexivity|].
    split; [simpl; lia|]. split; reflexivity.
  - destruct (is_import_error e); cbn;
      (eexists; eexists; exists []; split; [reflexivity|];
       split; [simpl; lia|]; split; reflexivity).
Qed.

Lemma diagnostics_always_report_witness :
  get_test (with_environ {[ "DATABASE_URL" := "sqlite://"; "DATABASE_NAME" := "x" ]}
              live_db_world)
  = get_test live_db_world.
Proof.
  destruct (diagnostics_always_report live_db_world)
    as (database & connection & names & _ & _ & _ & H).
  apply H; reflexivity.
Defined.

(** ** The order and the content of the external calls *)

Lemma send_email_session w p h port u pw t :
  truthy h && truthy u && truthy pw && truthy t = true ->
  exists st,
    send_email w p None h port u pw t []
    = (smtp_session_log w (the h) port (the u) (the pw) (the t)
         (inquiry_message (the u) (the t) p),
       Returned (Some st))
    /\ if smtp_session_ok w (the h) port (the u) (the pw) (the t)
            (inquiry_message (the u) (the t) p)
       then st = "sent"
       else exists e, st = "error: " +:+ slice_to 80 (exn_str e).
Proof.
  intros Hgate. unfold send_email. rewrite Hgate.
  unfold smtp_session_log, smtp_session_ok.
  unfold try_except, bind, with_exit, call_unit, modify, lift_unit, ret.
  cbn [app fst snd].
  fold (inquiry_message (the u) (the t) p).
  destruct (smtp_connect w (the h) port) as [e0|];
    [|destruct (smtp_starttls w) as [e1|];
      [|destruct (smtp_login w (the u) (the pw)) as [e2|];
        [|destruct (smtp_sendmail w (the u) (the t) _) as [e3|]]]];
    try (destruct (smtp_quit w) as [e4|]);
    (eexists; split; [reflexivity|]);
    first [ rewrite bool_decide_eq_true_2 by auto; reflexivity
          | rewrite bool_decide_eq_false_2
              by (intros (? & ? & ? & ? & ?); discriminate); eauto ].
Qed.

(** The whole run, when [SMTP_PORT] converts: the store, then the SMTP
    session if the email gate is open, then the one Notion request if that
    gate is open, and the reply built from the three outcomes. *)
Lemma contact_shape w p port :
  py_int (getenv_default w "SMTP_PORT" "587") = Some port ->
  let msg := inquiry_message (setting w "SMTP_USER") (setting w "NOTIFY_EMAIL") p in
  exists est nst,
    contact w p []
    = (CreateDocument "contact" (contact_document w p)
       :: (if all_truthy w email_settings
           then smtp_session_log w (setting w "SMTP_HOST") port
                  (setting w "SMTP_USER") (setting w "SMTP_PASS")
                  (setting w "NOTIFY_EMAIL") msg
           else [])
       ++ (if all_truthy w notion_settings
           then [RequestsPost notion_url
                   (PDict (notion_data (setting w "NOTION_DATABASE_ID") p))
                   (notion_headers (setting w "NOTION_TOKEN")) 10]
           else []),
       Returned [ ("ok", PBool true);
                  ("id", of_opt (stored_id w p));
                  ("email_status", of_opt est);
                  ("notion_status", of_opt nst) ])
    /\ (if all_truthy w email_settings
        then if smtp_session_ok w (setting w "SMTP_HOST") port
                  (setting w "SMTP_USER") (setting w "SMTP_PASS")
                  (setting w "NOTIFY_EMAIL") msg
             then est = Some "sent"
             else exists e, est = Some ("error: " +:+ slice_to 80 (exn_str e))
        else est = None)
    /\ (if all_truthy w notion_settings
        then match notion_answer w p with
             | Returned resp =>
                 nst = Some (if bool_decide (status_code resp = 200
                                             \/ status_code resp = 201)
                             then "created"
                             else "error: " +:+ pretty (status_code resp)
                                  +:+ " " +:+ slice_to 80 (text resp))
             | Raised e => nst = Some ("error: " +:+ slice_to 80 (exn_str e))
             end
        else nst = None).
Proof.
  intros Hp msg.
  destruct (contact_run w p port Hp) as (elog & est & nlog & nst & He & Hn & Hc).
  destruct (create_notion_page_cases w p (getenv w "NOTION_TOKEN")
              (getenv w "NOTION_DATABASE_ID")) as (st & E & D).
  rewrite Hn in E; injection E as -> <-.
  exists est, nst. rewrite Hc.
  rewrite all_truthy_email, all_truthy_notion.
  destruct (truthy (getenv w "SMTP_HOST") && truthy (getenv w "SMTP_USER")
            && truthy (getenv w "SMTP_PASS") && truthy (getenv w "NOTIFY_EMAIL"))
    eqn:Hgate.
  - destruct (send_email_session w p _ port _ _ _ Hgate) as (st & E & S).
    rewrite He in E; injection E as -> ->.
    split; [reflexivity|]. split; [|exact D].
    fold (setting w "SMTP_HOST") (setting w "SMTP_USER")
         (setting w "SMTP_PASS") (setting w "NOTIFY_EMAIL") in S.
    fold msg in S. destruct (smtp_session_ok _ _ _ _ _ _ _).
    + now rewrite S.
    + destruct S as [e ->]. eauto.
  - destruct (send_email_cases w p (getenv w "SMTP_HOST") port
                (getenv w "SMTP_USER") (getenv w "SMTP_PASS")
                (getenv w "NOTIFY_EMAIL")) as (evs & st & E & C).
    rewrite Hgate in C. destruct C as [-> ->].
    rewrite He in E; injection E as -> ->.
    split; [reflexivity|]. split; [reflexivity|exact D].
Qed.

Lemma truthy_setting w k :
  truthy (getenv w k) = true -> getenv w k = Some (setting w k).
Proof. unfold setting. destruct (getenv w k); [reflexivity|discriminate]. Qed.

Lemma all_truthy_elem w keys k :
  all_truthy w keys = true -> k ∈ keys -> getenv w k = Some (setting w k).
Proof.
  unfold all_truthy. intros Hall Hk. apply truthy_setting.
  induction keys as [|k' keys IH]; [now apply elem_of_nil in Hk|].
  simpl in Hall. apply andb_true_iff in Hall as [H1 H2].
  apply elem_of_cons in Hk as [->|Hk]; auto.
Qed.

Lemma smtp_session_log_smtp w h port u pw t msg :
  Forall (fun ev => is_smtp ev = true) (smtp_session_log w h port u pw t msg).
Proof.
  unfold smtp_session_log.
  destruct (smtp_connect w h port), (smtp_starttls w), (smtp_login w u pw);
    repeat constructor.
Qed.

Ltac no_dup :=
  repeat (apply NoDup_cons; split;
          [rewrite ?elem_of_cons, elem_of_nil; intuition discriminate|]);
  apply NoDup_nil_2.

Lemma smtp_session_log_once w h port u pw t msg :
  NoDup (smtp_session_log w h port u pw t msg)
  /\ (length (smtp_session_log w h port u pw t msg) <= 5)%nat.
Proof.
  unfold smtp_session_log.
  destruct (smtp_connect w h port), (smtp_starttls w), (smtp_login w u pw);
    (split; [cbn [app]; no_dup|simpl; lia]).
Qed.

(** X1.  One request makes each external call at most once and in a fixed
    order: the store first, then the SMTP calls (at most five, no call
    twice), then at most one POST to the Notion pages URL.  Nothing is
    retried, and no sink is attempted before the one written before it. *)
Theorem one_attempt_per_sink_in_order (w : World) (p : ContactPayload) :
  exists smtp post,
    (contact w p []).1
    = CreateDocument "contact" (contact_document w p) :: smtp ++ post
    /\ Forall (fun ev => is_smtp ev = true) smtp
    /\ NoDup smtp
    /\ (length smtp <= 5)%nat
    /\ (post = [] \/ exists json headers,
                       post = [RequestsPost notion_url json headers 10]).
Proof.
  destruct (py_int (getenv_default w "SMTP_PORT" "587")) as [port|] eqn:Hp.
  - destruct (contact_shape w p port Hp) as (est & nst & Hc & _ & _).
    rewrite Hc; cbn [fst]. do 2 eexists. split; [reflexivity|].
    destruct (all_truthy w email_settings).
    + split; [apply smtp_session_log_smtp|].
      split; [apply smtp_session_log_once|].
      split; [apply smtp_session_log_once|].
      destruct (all_truthy w notion_settings); eauto.
    + split; [constructor|]. split; [constructor|]. split; [simpl; lia|].
      destruct (all_truthy w notion_settings); eauto.
  - rewrite (contact_bad_port w p Hp); cbn [fst]. exists [], [].
    split; [reflexivity|]. split; [constructor|]. split; [constructor|].
    split; [simpl; lia|]. now left.
Qed.

(** Where a call can sit in the log of a run. *)
Lemma contact_log_elem w p ev :
  ev ∈ (contact w p []).1 ->
  ev = CreateDocument "contact" (contact_document w p)
  \/ (all_truthy w email_settings = true
      /\ exists port,
           py_int (getenv_default w "SMTP_PORT" "587") = Some port
           /\ ev ∈ smtp_session_log w (setting w "SMTP_HOST") port
                    (setting w "SMTP_USER") (setting w "SMTP_PASS")
                    (setting w "NOTIFY_EMAIL")
                    (inquiry_message (setting w "SMTP_USER")
                       (setting w "NOTIFY_EMAIL") p))
  \/ (all_truthy w notion_settings = true
      /\ smtp_port_parses w = true
      /\ ev = RequestsPost notion_url
                (PDict (notion_data (setting w "NOTION_DATABASE_ID") p))
                (notion_headers (setting w "NOTION_TOKEN")) 10).
Proof.
  intros Hin.
  destruct (py_int (getenv_default w "SMTP_PORT" "587")) as [port|] eqn:Hp.
  - destruct (contact_shape w p port Hp) as (est & nst & Hc & _ & _).
    rewrite Hc in Hin; cbn [fst] in Hin.
    apply elem_of_cons in Hin as [->|Hin]; [now left|].
    apply elem_of_app in Hin as [Hin|Hin].
    + destruct (all_truthy w email_settings); [|now apply elem_of_nil in Hin].
      right; left. eauto.
    + destruct (all_truthy w notion_settings); [|now apply elem_of_nil in Hin].
      apply list_elem_of_singleton in Hin. right; right.
      split; [reflexivity|]. split; [|exact Hin].
      unfold smtp_port_parses. apply bool_decide_eq_true. rewrite Hp. eauto.
  - rewrite (contact_bad_port w p Hp) in Hin; cbn [fst] in Hin.
    apply list_elem_of_singleton in Hin. now left.
Qed.

Ltac elems H :=
  cbn [app] in H; rewrite ?elem_of_cons, ?elem_of_app, ?elem_of_nil in H.

(** X2.  The login, and with it the password, is sent only on a channel
    that STARTTLS has upgraded: whenever the log holds a login call, the
    STARTTLS call returned normally and stands right before it, and the
    credentials are the values of [SMTP_USER] and [SMTP_PASS]. *)
Theorem credentials_only_after_starttls (w : World) (p : ContactPayload)
    (u pw : string) :
  SmtpLogin u pw ∈ (contact w p []).1 ->
  smtp_starttls w = None
  /\ getenv w "SMTP_USER" = Some u
  /\ getenv w "SMTP_PASS" = Some pw
  /\ exists pre post,
       (contact w p []).1 = pre ++ SmtpStartTls :: SmtpLogin u pw :: post.
Proof.
  intros Hin.
  destruct (py_int (getenv_default w "SMTP_PORT" "587")) as [port|] eqn:Hp.
  2: { rewrite (contact_bad_port w p Hp) in Hin; cbn [fst] in Hin.
       apply list_elem_of_singleton in Hin. discriminate Hin. }
  destruct (contact_shape w p port Hp) as (est & nst & Hc & _ & _).
  rewrite Hc in Hin |- *; cbn [fst] in Hin |- *.
  destruct (all_truthy w email_settings) eqn:Hg.
  2: { destruct (all_truthy w notion_settings); elems Hin;
       intuition discriminate. }
  assert (Hu := all_truthy_elem w email_settings "SMTP_USER" Hg).
  assert (Hpw := all_truthy_elem w email_settings "SMTP_PASS" Hg).
  unfold smtp_session_log in Hin |- *.
  destruct (smtp_connect w _ _) as [e0|].
  { destruct (all_truthy w notion_settings); elems Hin; intuition discriminate. }
  destruct (smtp_starttls w) as [e1|].
  { destruct (all_truthy w notion_settings); elems Hin; intuition discriminate. }
  assert (E : SmtpLogin u pw
              = SmtpLogin (setting w "SMTP_USER") (setting w "SMTP_PASS")).
  { destruct (smtp_login w _ _), (all_truthy w notion_settings);
      elems Hin; intuition discriminate. }
  injection E as -> ->.
  split; [reflexivity|].
  split; [apply Hu; unfold email_settings; rewrite !elem_of_cons; auto|].
  split; [apply Hpw; unfold email_settings; rewrite !elem_of_cons; auto|].
  eexists [_; _], _; reflexivity.
Qed.

Lemma credentials_only_after_starttls_witness :
  smtp_starttls outage_world = None
  /\ getenv outage_world "SMTP_USER" = Some "bot@example.org"
  /\ getenv outage_world "SMTP_PASS" = Some "hunter2"
  /\ exists pre post,
       (contact outage_world sample_payload []).1
       = pre ++ SmtpStartTls :: SmtpLogin "bot@example.org" "hunter2" :: post.
Proof.
  apply (credentials_only_after_starttls outage_world sample_payload).
  vm_compute. do 3 apply list_elem_of_further. apply list_elem_of_here.
Defined.

(** X3.  An SMTP connection is opened only to [SMTP_HOST], on the port
    [SMTP_PORT] converts to (587 when the variable is unset), with the
    timeout 10.  Once it is open the session is always closed: QUIT is in
    the log and no SMTP call follows it, whichever step failed.  When the
    connection could not be opened, no other SMTP call is made. *)
Theorem smtp_connection_is_always_closed (w : World) (p : ContactPayload)
    (h : string) (port timeout : Z) :
  SmtpConnect h port timeout ∈ (contact w p []).1 ->
  getenv w "SMTP_HOST" = Some h
  /\ py_int (getenv_default w "SMTP_PORT" "587") = Some port
  /\ (getenv w "SMTP_PORT" = None -> port = 587)
  /\ timeout = 10
  /\ match smtp_connect w h port with
     | None =>
         exists pre post,
           (contact w p []).1 = pre ++ SmtpQuit :: post
           /\ Forall (fun ev => is_smtp ev = false) post
     | Some _ =>
         forall ev, ev ∈ (contact w p []).1 -> is_smtp ev = true ->
                    ev = SmtpConnect h port timeout
     end.
Proof.
  intros Hin.
  destruct (py_int (getenv_default w "SMTP_PORT" "587")) as [pt|] eqn:Hp.
  2: { rewrite (contact_bad_port w p Hp) in Hin; cbn [fst] in Hin.
       apply list_elem_of_singleton in Hin. discriminate Hin. }
  destruct (contact_shape w p pt Hp) as (est & nst & Hc & _ & _).
  rewrite Hc in Hin |- *; cbn [fst] in Hin |- *.
  destruct (all_truthy w email_settings) eqn:Hg.
  2: { destruct (all_truthy w notion_settings); elems Hin;
       intuition discriminate. }
  assert (Hh := all_truthy_elem w email_settings "SMTP_HOST" Hg).
  unfold smtp_session_log in Hin |- *.
  assert (E : SmtpConnect h port timeout
              = SmtpConnect (setting w "SMTP_HOST") pt 10).
  { destruct (smtp_connect w _ _); [|destruct (smtp_starttls w);
      [|destruct (smtp_login w _ _)]];
      destruct (all_truthy w notion_settings);
      elems Hin; intuition discriminate. }
  injection E as -> -> ->.
  split; [apply Hh; unfold email_settings; rewrite !elem_of_cons; auto|].
  split; [reflexivity|]. split.
  { intros Hunset. unfold getenv_default, getenv in *.
    rewrite Hunset in Hp. simpl in Hp. now injection Hp. }
  split; [reflexivity|].
  destruct (smtp_connect w _ _) as [e0|].
  - intros ev Hev Hs.
    destruct (all_truthy w notion_settings); elems Hev;
      destruct Hev as [->|[->|Hev]]; try discriminate Hs; try reflexivity;
      try contradiction.
    destruct Hev as [->|[]]. discriminate Hs.
  - destruct (smtp_starttls w); [|destruct (smtp_login w _ _)];
      destruct (all_truthy w notion_settings); cbn [app].
    all: first
      [ eexists [_; _; _], _; split; [reflexivity|repeat constructor]
      | eexists [_; _; _; _], _; split; [reflexivity|repeat constructor]
      | eexists [_; _; _; _; _], _; split; [reflexivity|repeat constructor] ].
Qed.

Lemma smtp_connection_is_always_closed_witness :
  exists pre post,
    (contact smtp_refused_world sample_payload []).1 = pre ++ SmtpQuit :: post
    /\ Forall (fun ev => is_smtp ev = false) post.
Proof.
  destruct (smtp_connection_is_always_closed smtp_refused_world sample_payload
              "mail.example.org" 587 10) as (_ & _ & _ & _ & H).
  - vm_compute. apply list_elem_of_further, list_elem_of_here.
  - exact H.
Defined.

(** X4.  Mail is handed over only for delivery from [SMTP_USER] to
    [NOTIFY_EMAIL], never to or from an address of the submission, and only
    after the login returned normally; what is handed over is the message
    with the fixed subject and the one plain-text part built from the
    submission. *)
Theorem mail_goes_only_to_the_notify_address (w : World) (p : ContactPayload)
    (from_addr to_addr : string) (msg : mime) :
  SmtpSendmail from_addr to_addr msg ∈ (contact w p []).1 ->
  getenv w "SMTP_USER" = Some from_addr
  /\ getenv w "NOTIFY_EMAIL" = Some to_addr
  /\ msg = Mime [ ("From", from_addr); ("To", to_addr);
                  ("Subject", "New MC Creative Director AI inquiry") ]
                [ ("plain", email_body p) ]
  /\ smtp_starttls w = None
  /\ smtp_login w from_addr (setting w "SMTP_PASS") = None.
Proof.
  intros Hin. apply contact_log_elem in Hin as [Hin|[(Hg & port & Hp & Hin)|Hin]].
  - discriminate Hin.
  - assert (Hu := all_truthy_elem w email_settings "SMTP_USER" Hg).
    assert (Ht := all_truthy_elem w email_settings "NOTIFY_EMAIL" Hg).
    unfold smtp_session_log in Hin.
    destruct (smtp_connect w _ _) as [e0|]; [elems Hin; intuition discriminate|].
    destruct (smtp_starttls w) as [e1|]; [elems Hin; intuition discriminate|].
    destruct (smtp_login w _ _) as [e2|] eqn:Hl; [elems Hin; intuition discriminate|].
    assert (E : SmtpSendmail from_addr to_addr msg
                = SmtpSendmail (setting w "SMTP_USER") (setting w "NOTIFY_EMAIL")
                    (inquiry_message (setting w "SMTP_USER")
                       (setting w "NOTIFY_EMAIL") p))
      by (elems Hin; intuition discriminate).
    injection E as -> -> ->.
    split; [apply Hu; unfold email_settings; rewrite !elem_of_cons; auto|].
    split; [apply Ht; unfold email_settings; rewrite !elem_of_cons; auto 6|].
    split; [reflexivity|]. split; [reflexivity|exact Hl].
  - destruct Hin as (_ & _ & Hin). discriminate Hin.
Qed.

Lemma mail_goes_only_to_the_notify_address_witness :
  exists msg,
    SmtpSendmail "bot@example.org" "owner@example.org" msg
    ∈ (contact outage_world sample_payload []).1
    /\ getenv outage_world "NOTIFY_EMAIL" = Some "owner@example.org".
Proof.
  eexists. split.
  - vm_compute. do 4 apply list_elem_of_further. apply list_elem_of_here.
  - eapply (mail_goes_only_to_the_notify_address outage_world sample_payload).
    vm_compute. do 4 apply list_elem_of_further. apply list_elem_of_here.
Defined.



(** X6.  The reply says ["created"] exactly when the Notion sink is
    configured and the request was answered with status 200 or 201; every
    other status, and every exception of the request, reads as a failure. *)
Theorem created_iff_notion_answers_200_or_201 (w : World) (p : ContactPayload) :
  smtp_port_parses w = true ->
  exists body,
    (contact w p []).2 = Returned body
    /\ (notion_result body = Some Succeeded
        <-> all_truthy w notion_settings = true
            /\ exists resp, notion_answer w p = Returned resp
                             /\ (status_code resp = 200 \/ status_code resp = 201))
    /\ (all_truthy w notion_settings = true ->
        notion_result body = Some Succeeded
        \/ exists reason, notion_result body = Some (Failed reason)).
Proof.
  intros Hport. destruct (port_of w Hport) as [port Hp].
  destruct (contact_shape w p port Hp) as (est & nst & Hc & _ & Hn).
  rewrite Hc. eexists; split; [reflexivity|].
  unfold notion_result.
  change (dict_get "notion_status" _) with (Some (of_opt nst)).
  cbn [mbind option_bind].
  destruct (all_truthy w notion_settings).
  - destruct (notion_answer w p) as [resp|e]; subst nst; cbn [of_opt].
    + destruct (bool_decide _) eqn:Hok.
      * apply bool_decide_eq_true in Hok. split; [|auto].
        split; [eauto|reflexivity].
      * apply bool_decide_eq_false in Hok.
        rewrite sink_result_of_error by reflexivity. split; [|eauto].
        split; [discriminate|]. intros (_ & resp' & [= <-] & H). contradiction.
    + rewrite sink_result_of_error by reflexivity. split; [|eauto].
      split; [discriminate|]. intros (_ & resp' & H & _). discriminate H.
  - subst nst. split; [|discriminate].
    split; [discriminate|]. intros [H _]. discriminate H.
Qed.

Lemma created_iff_notion_answers_200_or_201_witness :
  exists body reason,
    (contact notion_500_world sample_payload []).2 = Returned body
    /\ notion_result body = Some (Failed reason).
Proof.
  destruct (created_iff_notion_answers_200_or_201 notion_500_world
              sample_payload eq_refl) as (body & Hb & Hiff & Hcfg).
  destruct (Hcfg eq_refl) as [H|[reason H]].
  - exfalso. apply Hiff in H. destruct H as (_ & resp & [= <-] & [H|H]);
      discriminate H.
  - exists body, reason. split; [exact Hb|exact H].
Defined.

Lemma other_than_smtp_app l1 l2 :
  other_than_smtp (l1 ++ l2) = other_than_smtp l1 ++ other_than_smtp l2.
Proof. apply filter_app. Qed.

Lemma other_than_smtp_create c d l :
  other_than_smtp (CreateDocument c d :: l)
  = CreateDocument c d :: other_than_smtp l.
Proof. unfold other_than_smtp. now rewrite filter_cons_True. Qed.

Lemma other_than_smtp_session w h port u pw t msg :
  other_than_smtp (smtp_session_log w h port u pw t msg) = [].
Proof.
  apply filter_none. intros ev Hev Hno.
  eapply Forall_forall in Hev; [|apply smtp_session_log_smtp].
  simpl in Hev. congruence.
Qed.

(** X7.  A failure of the email sink changes nothing else: two worlds that
    differ only in the answers of the mail server see the same store call
    and the same Notion request, and end the same way, the [email_status]
    field apart. *)
Theorem email_failure_is_isolated (w w' : World) (p : ContactPayload) :
  same_outside_smtp w w' ->
  other_than_smtp (contact w p []).1 = other_than_smtp (contact w' p []).1
  /\ forget_field "email_status" (contact w p []).2
     = forget_field "email_status" (contact w' p []).2.
Proof.
  intros (Henv & Hnow & Hstore & Hpost).
  assert (Hget : forall k, getenv w k = getenv w' k)
    by (intros k; unfold getenv; now rewrite Henv).
  assert (Hdoc : contact_document w p = contact_document w' p)
    by (unfold contact_document; now rewrite Hnow).
  assert (Hid : stored_id w p = stored_id w' p)
    by (unfold stored_id; now rewrite Hstore, Hdoc).
  assert (Hans : notion_answer w p = notion_answer w' p)
    by (unfold notion_answer; now rewrite Hpost, !Hget).
  assert (Hcfg : forall keys, all_truthy w keys = all_truthy w' keys).
  { intros keys. unfold all_truthy.
    induction keys as [|k keys IH]; simpl; [reflexivity|].
    now rewrite Hget, IH. }
  assert (Hport : getenv_default w "SMTP_PORT" "587"
                  = getenv_default w' "SMTP_PORT" "587")
    by (unfold getenv_default; now rewrite Henv).
  destruct (py_int (getenv_default w "SMTP_PORT" "587")) as [port|] eqn:Hp.
  - assert (Hp' := Hp). rewrite Hport in Hp'.
    destruct (contact_shape w p port Hp) as (est & nst & Hc & _ & Hn).
    destruct (contact_shape w' p port Hp') as (est' & nst' & Hc' & _ & Hn').
    rewrite <- Hcfg, <- Hans in Hn'.
    assert (nst = nst') as <-.
    { destruct (all_truthy w notion_settings); [|congruence].
      destruct (notion_answer w p); congruence. }
    rewrite Hc, Hc'; cbn [fst snd]. split.
    + rewrite !other_than_smtp_create, !other_than_smtp_app.
      rewrite <- !Hcfg.
      destruct (all_truthy w email_settings);
        rewrite ?other_than_smtp_session; unfold setting; rewrite <- !Hget;
        now rewrite Hdoc.
    + cbn. now rewrite Hid.
  - assert (Hp' := Hp). rewrite Hport in Hp'.
    rewrite (contact_bad_port w p Hp), (contact_bad_port w' p Hp').
    cbn [fst snd]. rewrite Hdoc, Hport. split; reflexivity.
Qed.

Lemma email_failure_is_isolated_witness :
  other_than_smtp (contact smtp_refused_world sample_payload []).1
  = other_than_smtp (contact (with_environ smtp_env quiet_world)
                       sample_payload []).1
  /\ forget_field "email_status" (contact smtp_refused_world sample_payload []).2
     = forget_field "email_status"
         (contact (with_environ smtp_env quiet_world) sample_payload []).2.
Proof.
  apply email_failure_is_isolated. repeat split.
Defined.

(** X8.  A failure of the Notion sink changes nothing else: whatever the
    request is answered with, the handler makes the same calls (the request
    included) and ends the same way, the [notion_status] field apart. *)
Theorem notion_failure_is_isolated (w : World) (p : ContactPayload)
    (answer : string -> pyval -> dict -> result http_response) :
  (contact w p []).1 = (contact (with_requests_post answer w) p []).1
  /\ forget_field "notion_status" (contact w p []).2
     = forget_field "notion_status"
         (contact (with_requests_post answer w) p []).2.
Proof.
  destruct (py_int (getenv_default w "SMTP_PORT" "587")) as [port|] eqn:Hp.
  - destruct (contact_shape w p port Hp) as (est & nst & Hc & He & _).
    destruct (contact_shape (with_requests_post answer w) p port Hp)
      as (est' & nst' & Hc' & He' & _).
    assert (est = est').
    { destruct (contact_run w p port Hp)
        as (elog & est0 & nlog & nst0 & Hs & _ & Hr).
      destruct (contact_run (with_requests_post answer w) p port Hp)
        as (elog' & est0' & nlog' & nst0' & Hs' & _ & Hr').
      assert (E : (elog, @Returned (option string) est0)
                  = (elog', Returned est0')) by (rewrite <- Hs; exact Hs').
      injection E as _ <-.
      rewrite Hc in Hr. rewrite Hc' in Hr'.
      injection Hr as _ Hr. injection Hr' as _ Hr'.
      destruct est, est0, est'; simpl in *; congruence. }
    subst est'. rewrite Hc, Hc'. split; reflexivity.
  - rewrite (contact_bad_port w p Hp).
    rewrite (contact_bad_port (with_requests_post answer w) p Hp).
    split; reflexivity.
Qed.



(** X10.  The one request sent to Notion goes to the pages URL with the
    timeout 10, carries the token of [NOTION_TOKEN] as a bearer credential
    and the pinned API version, names [NOTION_DATABASE_ID] as the parent,
    and maps the submission onto the page: name to the title, email to the
    email property, company to rich text (empty when there is none), source
    to the select option (["website"] when it is null or empty).  Adding the
    Message property leaves the other four in place. *)
Theorem notion_page_fields (w : World) (p : ContactPayload)
    (url : string) (json : pyval) (headers : dict) (timeout : Z) :
  RequestsPost url json headers timeout ∈ (contact w p []).1 ->
  url = "https://api.notion.com/v1/pages" /\ timeout = 10
  /\ (exists token, getenv w "NOTION_TOKEN" = Some token
                    /\ dict_get "Authorization" headers
                       = Some (PStr ("Bearer " +:+ token)))
  /\ dict_get "Notion-Version" headers = Some (PStr "2022-06-28")
  /\ (exists db, getenv w "NOTION_DATABASE_ID" = Some db
                 /\ lookup_path ["parent"; "database_id"] json = Some (PStr db))
  /\ lookup_path ["properties"; "Name"; "title"; "0"; "text"; "content"] json
     = Some (PStr (name p))
  /\ lookup_path ["properties"; "Email"; "email"] json = Some (PStr (email p))
  /\ lookup_path ["properties"; "Company"; "rich_text"; "0"; "text"; "content"]
       json
     = Some (PStr (match company p with Some c => c | None => "" end))
  /\ lookup_path ["properties"; "Source"; "select"; "name"] json
     = Some (PStr (match source p with
                   | None | Some "" => "website"
                   | Some s => s
                   end))
  /\ (exists keys, (as_dict <$> lookup_path ["properties"] json)
                   = Some (Some keys)
                   /\ dict_keys keys
                      = ["Name"; "Email"; "Company"; "Source"; "Message"]).
Proof.
  intros Hin. apply contact_log_elem in Hin as [Hin|[(_ & port & _ & Hin)|Hin]].
  - discriminate Hin.
  - eapply Forall_forall in Hin; [|apply smtp_session_log_smtp].
    discriminate Hin.
  - destruct Hin as (Hg & _ & Hin). injection Hin as -> -> -> ->.
    assert (Ht := all_truthy_elem w notion_settings "NOTION_TOKEN" Hg).
    assert (Hd := all_truthy_elem w notion_settings "NOTION_DATABASE_ID" Hg).
    split; [reflexivity|]. split; [reflexivity|].
    split. { eexists; split; [apply Ht; now left|reflexivity]. }
    split; [reflexivity|].
    split. { eexists; split;
             [apply Hd; unfold notion_settings; rewrite !elem_of_cons; auto
             |reflexivity]. }
    split; [reflexivity|]. split; [reflexivity|].
    split. { unfold notion_data. destruct (company p) as [[|c cs]|]; reflexivity. }
    split. { unfold notion_data. destruct (source p) as [[|c cs]|]; reflexivity. }
    eexists; split; reflexivity.
Qed.

Lemma notion_page_fields_witness :
  exists json headers,
    RequestsPost notion_url json headers 10
    ∈ (contact long_message_world long_message_payload []).1
    /\ lookup_path ["properties"; "Source"; "select"; "name"] json
       = Some (PStr "website")
    /\ lookup_path ["properties"; "Company"; "rich_text"; "0"; "text"; "content"]
         json
       = Some (PStr "Analytical Engines").
Proof.
  assert (Hin : exists json headers,
             RequestsPost notion_url json headers 10
             ∈ (contact long_message_world long_message_payload []).1).
  { do 2 eexists. vm_compute. apply list_elem_of_further, list_elem_of_here. }
  destruct Hin as (json & headers & Hin).
  exists json, headers. split; [exact Hin|].
  destruct (notion_page_fields _ _ _ _ _ _ Hin)
    as (_ & _ & _ & _ & _ & _ & _ & Hco & Hso & _).
  split; [exact Hso|exact Hco].
Defined.

(** X11.  What reaches the store is the validated submission: the address
    as the validator normalised it (not as it was typed), a null company
    when none was given, and for [source] the default ["website"] when the
    key is missing but null when the body says null. *)
Theorem validated_fields_reach_the_store (w : World) (b : RawBody)
    (n e e' m : string) :
  raw_name b = Str n -> raw_email b = Str e -> email_validator w e = Some e' ->
  raw_message b = Str m ->
  exists rest,
    (post_contact w b).1
    = CreateDocument "contact"
        [ ("name", PStr n);
          ("email", PStr e');
          ("company", match raw_company b with Str c => PStr c | _ => PNone end);
          ("message", PStr m);
          ("source", match raw_source b with
                     | Missing => PStr "website"
                     | Null => PNone
                     | Str s => PStr s
                     end);
          ("received_at", PStr (isoformat (utcnow w))) ] :: rest.
Proof.
  intros Hn He Hv Hm.
  assert (Hp : validate w b
               = Some {| name := n; email := e';
                         company := optional_str None (raw_company b);
                         message := m;
                         source := optional_str (Some "website") (raw_source b) |}).
  { unfold validate. rewrite Hn, He; simpl. rewrite Hv; simpl. now rewrite Hm. }
  destruct (post_contact_log_of_valid w b _ Hp) as [rest Hr].
  exists rest. rewrite Hr. unfold contact_document; cbn [name email company message source].
  destruct (raw_company b), (raw_source b); reflexivity.
Qed.

Lemma validated_fields_reach_the_store_witness :
  exists doc rest,
    (post_contact quiet_world full_body).1 = CreateDocument "contact" doc :: rest
    /\ dict_get "source" doc = Some PNone
    /\ dict_get "company" doc = Some (PStr "Analytical Engines").
Proof.
  destruct (validated_fields_reach_the_store quiet_world full_body
              "Ada" "a@b.com" "a@b.com" "hi" eq_refl eq_refl eq_refl eq_refl)
    as [rest Hr].
  do 2 eexists. split; [exact Hr|]. split; reflexivity.
Defined.

Ltac run_test_database :=
  unfold get_test, test_database, try_except2, try_except, bind, set_item,
    modify, lift, get, reply_of.

(** X12.  The name of the database handle never reaches the report: the
    handler writes [db.name] into [database_name] and then overwrites it
    with the flag, so two handles that differ only in their name give the
    same report. *)
Theorem db_name_is_never_reported (w : World) (names : result (list string))
    (a a' : option pyval) :
  get_test (with_import_db (Returned (Some (DbHandle (Returned a) names))) w)
  = get_test (with_import_db (Returned (Some (DbHandle (Returned a') names))) w).
Proof.
  run_test_database. cbn.
  destruct names as [l|e]; reflexivity.
Qed.

(** X13.  [connection_status] is ["Connected"] exactly when the import gave
    a handle and the lookup of its name did not raise, and is
    ["Not Connected"] otherwise; it stays ["Connected"] when listing the
    collections fails afterwards. *)
Theorem connection_status_tells_a_handle (w : World) :
  exists report,
    get_test w = Ok200 report
    /\ (dict_get "connection_status" report = Some (PStr "Connected")
        \/ dict_get "connection_status" report = Some (PStr "Not Connected"))
    /\ (dict_get "connection_status" report = Some (PStr "Connected")
        <-> exists db a, import_db w = Returned (Some db)
                         /\ db_name db = Returned a).
Proof.
  run_test_database.
  destruct (import_db w) as [[db|]|e]; cbn.
  - destruct (db_name db) as [attr|e] eqn:Hname; cbn.
    + destruct (list_collection_names db) as [l|e]; cbn;
        (eexists; split; [reflexivity|]; split; [now left|];
         split; [intros _; eauto|reflexivity]).
    + destruct (is_import_error e); cbn;
        (eexists; split; [reflexivity|]; split; [now right|];
         split; [discriminate|]; intros (db' & a & [= <-] & H); congruence).
  - eexists; split; [reflexivity|]. split; [now right|].
    split; [discriminate|]. intros (db' & a & H & _). discriminate H.
  - destruct (is_import_error e); cbn;
      (eexists; split; [reflexivity|]; split; [now right|];
       split; [discriminate|]; intros (db' & a & H & _); discriminate H).
Qed.

